(** * Task Manager API: authentication and authorisation core

    A shallow embedding of the user model
    ([Task Manager/app/models/user.py]), the user schemas
    ([app/schemas/user.py]) and the versioned endpoints
    ([app/api/v1/endpoints/users.py]), together with the properties the
    specification states about them.

    Python [str] values are modelled as [string]; every [ascii] stands for
    the code point of the same number, so the model covers text whose code
    points are below 256 and says nothing of text with a code point above
    U+00FF.  Integers are [Z].  Database tables are lists of rows in
    insertion order. *)

From Stdlib Require Import ZArith Ascii String Decimal DecimalString DecimalN.
From stdpp Require Import base option list strings gmap.

Local Open Scope string_scope.
Local Open Scope Z_scope.

(** ** Python string operations used by the sources *)

Module PyStr.

(** [len(s)]. *)
Definition len (s : string) : Z := Z.of_nat (String.length s).

(** One code point of [str.lower()]: the ASCII capitals and the Latin-1
    capitals (U+00C0 to U+00DE, the multiplication sign U+00D7 apart) move
    up by 32, every other code point below 256 is its own lower case.
    Above U+00FF, which is outside this model, [str.lower()] can also
    lengthen a text (U+0130 becomes two code points). *)
Definition lower_char (c : ascii) : ascii :=
    let n := nat_of_ascii c in
    if ((65 <=? n)%nat && (n <=? 90)%nat)
       || ((192 <=? n)%nat && (n <=? 222)%nat && negb (n =? 215)%nat)
    then ascii_of_nat (n + 32)
    else c.

(** [s.lower()]. *)
Fixpoint lower (s : string) : string :=
    match s with
    | EmptyString => EmptyString
    | String c r => String (lower_char c) (lower r)
    end.

(** [s.startswith(p)]. *)
Fixpoint startswith (p s : string) : bool :=
    match p, s with
    | EmptyString, _ => true
    | String a p', String b s' => if Ascii.eqb a b then startswith p' s' else false
    | String _ _, EmptyString => false
    end.

(** [needle in hay]: [needle] occurs in [hay] as a contiguous run. *)
Fixpoint contains (needle hay : string) : bool :=
    startswith needle hay
    || match hay with
       | EmptyString => false
       | String _ r => contains needle r
       end.

(** Truthiness of a [str]: the empty string is false. *)
Definition truthy (s : string) : bool :=
    match s with EmptyString => false | String _ _ => true end.

(** The characters of a string, for statements about every character. *)
Fixpoint chars (s : string) : list ascii :=
    match s with
    | EmptyString => []
    | String c r => c :: chars r
    end.

End PyStr.

(** ** [app/schemas/user.py]: the request and response schemas *)

Module Schemas.

(** [class UserScope(str, Enum)]. *)
Inductive UserScope : Set :=
  | TASKS_READ | TASKS_WRITE | USERS_READ | USERS_WRITE | ADMIN.

#[global] Instance UserScope_eq_dec : EqDecision UserScope.
  Proof. solve_decision. Defined.

(** The [str] value of each member. *)
Definition UserScope_value (s : UserScope) : string :=
    match s with
    | TASKS_READ => "tasks:read"
    | TASKS_WRITE => "tasks:write"
    | USERS_READ => "users:read"
    | USERS_WRITE => "users:write"
    | ADMIN => "admin"
    end.

(** [UserScope(v)]: the member whose value is [v], as pydantic looks it up
    when it fills [scopes: List[UserScope]]. *)
Definition UserScope_of_value (v : string) : option UserScope :=
    if String.eqb v "tasks:read" then Some TASKS_READ
    else if String.eqb v "tasks:write" then Some TASKS_WRITE
    else if String.eqb v "users:read" then Some USERS_READ
    else if String.eqb v "users:write" then Some USERS_WRITE
    else if String.eqb v "admin" then Some ADMIN
    else None.

(** What one field validator reports; pydantic turns any of them into a
    422 response. *)
Inductive field_error : Set :=
  | AnyStrMinLengthError (limit_value : Z)
  | AnyStrMaxLengthError (limit_value : Z)
  | StrRegexError (pattern : string)
  | EmailError
  | ValueError (msg : string).

Definition validated (A : Type) : Type := field_error + A.

(** [Field(min_length=.., max_length=..)] on a [str]: pydantic's
    [constr_length_validator]. *)
Definition constr_length_validator (min_length max_length : option Z)
      (v : string) : validated string :=
    match min_length with
    | Some lo =>
        if PyStr.len v <? lo then inl (AnyStrMinLengthError lo)
        else match max_length with
             | Some hi => if hi <? PyStr.len v then inl (AnyStrMaxLengthError hi) else inr v
             | None => inr v
             end
    | None =>
        match max_length with
        | Some hi => if hi <? PyStr.len v then inl (AnyStrMaxLengthError hi) else inr v
        | None => inr v
        end
    end.

(** The pattern of [UserBase.username], line 21. *)
Definition username_pattern : string := "^[a-zA-Z0-9_-]+$".

(** Membership in the class [[a-zA-Z0-9_-]]. *)
Definition in_class (c : ascii) : bool :=
    let n := nat_of_ascii c in
    ((97 <=? n)%nat && (n <=? 122)%nat)
    || ((65 <=? n)%nat && (n <=? 90)%nat)
    || ((48 <=? n)%nat && (n <=? 57)%nat)
    || (n =? 95)%nat || (n =? 45)%nat.

(** [[a-zA-Z0-9_-]*$] against the rest of the input.  Python's [$]
    (without [re.MULTILINE]) holds at the end of the string and also just
    before a line feed that is the last character. *)
Fixpoint re_class_star_end (s : string) : bool :=
    match s with
    | EmptyString => true
    | String c r =>
        if in_class c then re_class_star_end r
        else Ascii.eqb c "010" && negb (PyStr.truthy r)
    end.

(** [re.match(username_pattern, v)], which is how pydantic's
    [ConstrainedStr.validate] applies [regex=]. *)
Definition re_match_username (v : string) : bool :=
    match v with
    | EmptyString => false
    | String c r => in_class c && re_class_star_end r
    end.

Definition regex_validator (v : string) : validated string :=
    if re_match_username v then inr v else inl (StrRegexError username_pattern).

(** [UserBase.username_must_be_valid], lines 23-27. *)
Definition UserBase_username_must_be_valid (v : string) : validated string :=
    if PyStr.contains "admin" (PyStr.lower v)
    then inl (ValueError "Username cannot contain 'admin'")
    else inr v.

(** The whole chain of validators on [UserBase.username]: length, pattern,
    then the class validator; the first failure ends the chain. *)
Definition validate_UserBase_username (v : string) : validated string :=
    match constr_length_validator (Some 3) (Some 50) v with
    | inl e => inl e
    | inr v1 =>
        match regex_validator v1 with
        | inl e => inl e
        | inr v2 => UserBase_username_must_be_valid v2
        end
    end.

(** [UserUpdate.username_must_be_valid], lines 39-43, on a string.  For an
    explicit null pydantic hands the validator [None], without the length
    check; the test [v and ...] is then false and [None] is returned, which
    is the [None] case of [UserUpdate_errors] below. *)
Definition UserUpdate_username_must_be_valid (v : string) : validated string :=
    if PyStr.truthy v && PyStr.contains "admin" (PyStr.lower v)
    then inl (ValueError "Username cannot contain 'admin'")
    else inr v.

(** The chain on [UserUpdate.username] when the update carries one:
    length, then the class validator.  No pattern is declared (line 35). *)
Definition validate_UserUpdate_username (v : string) : validated string :=
    match constr_length_validator (Some 3) (Some 50) v with
    | inl e => inl e
    | inr v1 => UserUpdate_username_must_be_valid v1
    end.

(** [class UserCreate(UserBase)], as submitted. *)
Record UserCreate : Set := mkUserCreate {
    uc_email : string;
    uc_username : string;
    uc_password : string;
    uc_full_name : option string
  }.

(** [class UserUpdate(BaseModel)], once every field has parsed to its
    type: a field is [None] when the request leaves it out or gives null.
    A request whose field does not parse (an [is_active] that is no
    boolean, a [username] that is no text) is refused by pydantic before,
    and is not a value of this record. *)
Record UserUpdate : Set := mkUserUpdate {
    uu_email : option string;
    uu_username : option string;
    uu_full_name : option string;
    uu_is_active : option bool
  }.

(** [class UserRead(UserBase)]: the projection of a user the endpoints
    receive as [current_user] and return.  Timestamps are seconds since the
    epoch; [created_at] and [updated_at] are assigned by the server and
    play no role here. *)
Record UserRead : Set := mkUserRead {
    ur_id : Z;
    ur_email : string;
    ur_username : string;
    ur_full_name : option string;
    ur_is_active : bool;
    ur_is_superuser : bool;
    ur_last_login : option N;
    ur_scopes : list UserScope
  }.

(** [class Token(BaseModel)]. *)
Record Token : Set := mkToken {
    access_token : string;
    token_type : string
  }.

(** [EmailStr] is checked by the [email-validator] package. *)
Class EmailValidator := EmailStr_valid : string -> bool.

Definition errors_of {A} (field : string) (r : validated A)
  : list (string * field_error) :=
  match r with inl e => [(field, e)] | inr _ => [] end.

Definition validate_email `{EmailValidator} (v : string) : validated string :=
  if EmailStr_valid v then inr v else inl EmailError.

(** Validation of a [UserCreate] body: every field is validated, in
    declaration order, and the errors are collected; the body is accepted
    when there is none. *)
Definition UserCreate_errors `{EmailValidator} (body : UserCreate)
  : list (string * field_error) :=
  errors_of "email" (validate_email (uc_email body))
  ++ errors_of "username" (validate_UserBase_username (uc_username body))
  ++ errors_of "password" (constr_length_validator (Some 8) None (uc_password body))
  ++ match uc_full_name body with
     | Some n => errors_of "full_name" (constr_length_validator None (Some 100) n)
     | None => []
     end.

(** The field validators on a parsed [UserUpdate] body.  A field that is
    [None] gives no error: no validator runs on an absent field, and the
    username validator returns a null as it is.  [is_active] has no
    validator beyond its parsing. *)
Definition UserUpdate_errors `{EmailValidator} (body : UserUpdate)
  : list (string * field_error) :=
  match uu_email body with
  | Some e => errors_of "email" (validate_email e)
  | None => []
  end
  ++ match uu_username body with
     | Some u => errors_of "username" (validate_UserUpdate_username u)
     | None => []
     end
  ++ match uu_full_name body with
     | Some n => errors_of "full_name" (constr_length_validator None (Some 100) n)
     | None => []
     end.

End Schemas.

(** ** HTTP outcomes of an endpoint *)

Module Http.

(** [fastapi.HTTPException(status_code, detail, headers)]. *)
Record HTTPException : Set := mkHTTPException {
  status_code : Z;
  detail : string;
  headers : list (string * string)
}.

(** An endpoint either raises an [HTTPException] or returns a body. *)
Definition response (A : Type) : Type := HTTPException + A.

Definition HTTP_401_UNAUTHORIZED : Z := 401.
Definition HTTP_403_FORBIDDEN : Z := 403.
Definition HTTP_404_NOT_FOUND : Z := 404.
Definition HTTP_409_CONFLICT : Z := 409.

(** Whether the endpoint returned normally. *)
Definition succeeded {A} (r : response A) : bool :=
  match r with inl _ => false | inr _ => true end.

End Http.

(** ** [Task Manager/app/models/user.py]: the user model *)

Module Models.

(** [pwd_context = CryptContext(schemes=["bcrypt"])] of passlib.  Hashing
    draws a salt; it is an argument here.  The laws are the contract of
    sections 3, 4.1 and 8 of the specification: a digest verifies its own
    plaintext and no other plaintext, is never the plaintext itself, and is
    never empty. *)
Class PasswordHasher : Type := {
  pwd_hash : string -> string -> string;
  pwd_verify : string -> string -> bool;
  pwd_verify_hash : forall salt p, pwd_verify p (pwd_hash salt p) = true;
  pwd_verify_other : forall salt p q, p <> q -> pwd_verify p (pwd_hash salt q) = false;
  pwd_hash_not_plain : forall salt p, pwd_hash salt p <> p;
  pwd_hash_not_empty : forall salt p, pwd_hash salt p <> EmptyString
}.

(** [class User(Base)], lines 16-31.  [created_at] and [updated_at] are
    assigned by the database server and [metadata_] is free-form; none of
    the three is read by the code below. *)
Record User : Set := mkUser {
  id : Z;
  email : string;
  username : string;
  hashed_password : string;
  full_name : option string;
  is_active : bool;
  is_superuser : bool;
  last_login : option N
}.

(** [User.scopes], lines 40-44. *)
Definition scopes (self : User) : list string :=
  if is_superuser self
  then ["tasks:read"; "tasks:write"; "users:read"; "users:write"; "admin"]
  else ["tasks:read"; "tasks:write"].

(** [User.hash_password], lines 47-49. *)
Definition hash_password `{PasswordHasher} (self : User) (salt password : string)
  : string :=
  pwd_hash salt password.

(** [User.verify_password], lines 51-53. *)
Definition verify_password `{PasswordHasher} (self : User)
    (plain_password hashed_password : string) : bool :=
  pwd_verify plain_password hashed_password.

(** [User.update_last_login], lines 55-57.  The method assigns the SQL
    expression [func.now()], which the database evaluates when the row is
    written; [now] is the time it evaluates to.  The same write refreshes
    [updated_at] (line 30), which the record does not carry. *)
Definition update_last_login (self : User) (now : N) : User :=
  mkUser (id self) (email self) (username self) (hashed_password self)
         (full_name self) (is_active self) (is_superuser self) (Some now).

Definition set_hashed_password (self : User) (h : string) : User :=
  mkUser (id self) (email self) (username self) h
         (full_name self) (is_active self) (is_superuser self) (last_login self).

(** [hash_user_password], the [before_insert] listener of lines 60-63: it
    hashes whatever the [hashed_password] attribute holds when the row is
    inserted, unless that is empty. *)
Definition hash_user_password `{PasswordHasher} (salt : string) (target : User)
  : User :=
  if PyStr.truthy (hashed_password target)
  then set_hashed_password target (pwd_hash salt (hashed_password target))
  else target.

End Models.

(** ** The database and the collaborators of the endpoints *)

Module Db.

(** Modelled from the spec: the task model ([app/models/task.py], imported at
    line 12 of the user model) is not part of the sources.  Section 3 gives
    a task exactly one owner; a row is an identifier, the owner's identifier
    and a title. *)
Record Task : Set := mkTask {
  task_id : Z;
  task_owner_id : Z;
  task_title : string
}.

(** Modelled from the spec: categories are owned like tasks (section 4.5);
    their model is not part of the sources either. *)
Record Category : Set := mkCategory {
  category_id : Z;
  category_owner_id : Z;
  category_name : string
}.

(** The three tables, rows in insertion order. *)
Record Store : Set := mkStore {
  users : list Models.User;
  tasks : list Task;
  categories : list Category
}.

(** What a request reads from outside the database: the clock, and the
    salts drawn while it runs, numbered in the order they are drawn. *)
Record Env : Set := mkEnv {
  now : N;
  entropy : nat -> string
}.

(** Bodies of the task and category requests ([app/schemas/task.py] and
    [app/schemas/category.py] are not part of the sources): a title or a
    name.  No body carries an owner. *)
Record TaskCreate : Set := mkTaskCreate { tc_title : string }.
Record TaskUpdate : Set := mkTaskUpdate { tu_title : option string }.
Record CategoryCreate : Set := mkCategoryCreate { cc_name : string }.
Record CategoryUpdate : Set := mkCategoryUpdate { cu_name : option string }.

End Db.

Module Services.
Import Http Schemas Db.

(** The functions the endpoints import from [app.services.auth],
    [app.services.task_service] and [app.services.category_service], lines
    12-28 of the endpoints.  Each may read the clock and the entropy, change
    the database and raise. *)
Class Services : Type := {
  authenticate_user : Env -> Store -> string -> string -> Store * option Models.User;
  create_access_token : Env -> string -> list string -> string;
  get_current_active_user : Env -> Store -> string -> response UserRead;
  UserService_create_user : Env -> Store -> UserCreate -> Store * response UserRead;
  UserService_get_users : Env -> Store -> Z -> Z -> Store * response (list UserRead);
  UserService_get_user : Env -> Store -> Z -> Store * response (option UserRead);
  UserService_update_user : Env -> Store -> Z -> UserUpdate -> Store * response UserRead;
  UserService_delete_user : Env -> Store -> Z -> Store * response unit;
  TaskService_create_task : Env -> Store -> TaskCreate -> Z -> Store * response Task;
  TaskService_get_tasks : Env -> Store -> Z -> Z -> Z -> Store * response (list Task);
  TaskService_get_task : Env -> Store -> Z -> Z -> Store * response (option Task);
  TaskService_update_task : Env -> Store -> Z -> TaskUpdate -> Z -> Store * response Task;
  TaskService_delete_task : Env -> Store -> Z -> Z -> Store * response unit;
  CategoryService_create_category :
    Env -> Store -> CategoryCreate -> Z -> Store * response Category;
  CategoryService_get_categories :
    Env -> Store -> Z -> Z -> Z -> Store * response (list Category);
  CategoryService_get_category :
    Env -> Store -> Z -> Z -> Store * response (option Category);
  CategoryService_update_category :
    Env -> Store -> Z -> CategoryUpdate -> Z -> Store * response Category;
  CategoryService_delete_category : Env -> Store -> Z -> Z -> Store * response unit
}.

End Services.

(** ** [app/api/v1/endpoints/users.py]: the endpoints

    An endpoint takes the values FastAPI hands to the function once the
    request has been parsed, the database, and the bearer token its
    [Depends(get_current_active_user)] is resolved from; it returns the
    database it leaves and what the client receives. *)

Module Endpoints.
Import Http Schemas Db Services.

Section WithServices.
Context `{Services}.

(** [current_user: UserRead = Depends(get_current_active_user)]: the
    dependency runs before the body of the endpoint, and what it raises is
    the response. *)
Definition depends_current_user {A} (env : Env) (db : Store) (token : string)
    (body : UserRead -> Store * response A) : Store * response A :=
  match get_current_active_user env db token with
  | inl e => (db, inl e)
  | inr current_user => body current_user
  end.

(** The exception of lines 63-66, 82-85, 95-98, 112-115 and 125-128. *)
Definition not_enough_permissions : HTTPException :=
  mkHTTPException HTTP_403_FORBIDDEN "Not enough permissions" [].

(** The exception of lines 42-46. *)
Definition incorrect_username_or_password : HTTPException :=
  mkHTTPException HTTP_401_UNAUTHORIZED "Incorrect username or password"
                  [("WWW-Authenticate", "Bearer")].

(** [scope not in current_user.scopes]. *)
Definition lacks (scope : UserScope) (current_user : UserRead) : bool :=
  negb (bool_decide (scope ∈ ur_scopes current_user)).

(** [login_for_access_token], lines 35-50. *)
Definition login_for_access_token (env : Env) (db : Store)
    (form_username form_password : string) : Store * response Token :=
  let '(db1, user) := authenticate_user env db form_username form_password in
  match user with
  | None => (db1, inl incorrect_username_or_password)
  | Some user =>
      let access_token :=
        create_access_token env (Models.username user) (Models.scopes user) in
      (db1, inr (mkToken access_token "bearer"))
  end.

(** [create_user], lines 52-68, for a request that carries bearer
    credentials.  Its [credentials] parameter is resolved by [HTTPBearer]
    (lines 33 and 56) before the guard: a request without bearer
    credentials is answered 403 there and never reaches the function.  The
    body does not read the parameter. *)
Definition create_user (env : Env) (db : Store) (token : string)
    (user : UserCreate) : Store * response UserRead :=
  depends_current_user env db token (fun current_user =>
    if lacks USERS_WRITE current_user then (db, inl not_enough_permissions)
    else UserService_create_user env db user).

(** [read_users_me], lines 70-72. *)
Definition read_users_me (env : Env) (db : Store) (token : string)
  : Store * response UserRead :=
  depends_current_user env db token (fun current_user => (db, inr current_user)).

(** [read_users], lines 74-86. *)
Definition read_users (env : Env) (db : Store) (token : string)
    (skip limit : Z) : Store * response (list UserRead) :=
  depends_current_user env db token (fun current_user =>
    if lacks USERS_READ current_user then (db, inl not_enough_permissions)
    else UserService_get_users env db skip limit).

(** [read_user], lines 88-102. *)
Definition read_user (env : Env) (db : Store) (token : string)
    (user_id : Z) : Store * response UserRead :=
  depends_current_user env db token (fun current_user =>
    if lacks USERS_READ current_user then (db, inl not_enough_permissions)
    else
      match UserService_get_user env db user_id with
      | (db1, inl e) => (db1, inl e)
      | (db1, inr None) =>
          (db1, inl (mkHTTPException HTTP_404_NOT_FOUND "User not found" []))
      | (db1, inr (Some user)) => (db1, inr user)
      end).

(** [update_user], lines 104-116. *)
Definition update_user (env : Env) (db : Store) (token : string)
    (user_id : Z) (user_update : UserUpdate) : Store * response UserRead :=
  depends_current_user env db token (fun current_user =>
    if lacks USERS_WRITE current_user then (db, inl not_enough_permissions)
    else UserService_update_user env db user_id user_update).

(** [delete_user], lines 118-130. *)
Definition delete_user (env : Env) (db : Store) (token : string)
    (user_id : Z) : Store * response unit :=
  depends_current_user env db token (fun current_user =>
    if lacks USERS_WRITE current_user then (db, inl not_enough_permissions)
    else UserService_delete_user env db user_id).

(** [create_task], lines 132-141. *)
Definition create_task (env : Env) (db : Store) (token : string)
    (task : TaskCreate) : Store * response Task :=
  depends_current_user env db token (fun current_user =>
    TaskService_create_task env db task (ur_id current_user)).

(** [read_tasks], lines 143-153. *)
Definition read_tasks (env : Env) (db : Store) (token : string)
    (skip limit : Z) : Store * response (list Task) :=
  depends_current_user env db token (fun current_user =>
    TaskService_get_tasks env db skip limit (ur_id current_user)).

(** [read_task], lines 155-167. *)
Definition read_task (env : Env) (db : Store) (token : string)
    (task_id : Z) : Store * response Task :=
  depends_current_user env db token (fun current_user =>
    match TaskService_get_task env db task_id (ur_id current_user) with
    | (db1, inl e) => (db1, inl e)
    | (db1, inr None) =>
        (db1, inl (mkHTTPException HTTP_404_NOT_FOUND "Task not found" []))
    | (db1, inr (Some task)) => (db1, inr task)
    end).

(** [update_task], lines 169-179. *)
Definition update_task (env : Env) (db : Store) (token : string)
    (task_id : Z) (task_update : TaskUpdate) : Store * response Task :=
  depends_current_user env db token (fun current_user =>
    TaskService_update_task env db task_id task_update (ur_id current_user)).

(** [delete_task], lines 181-191. *)
Definition delete_task (env : Env) (db : Store) (token : string)
    (task_id : Z) : Store * response unit :=
  depends_current_user env db token (fun current_user =>
    TaskService_delete_task env db task_id (ur_id current_user)).

(** [create_category], lines 193-202. *)
Definition create_category (env : Env) (db : Store) (token : string)
    (category : CategoryCreate) : Store * response Category :=
  depends_current_user env db token (fun current_user =>
    CategoryService_create_category env db category (ur_id current_user)).

(** [read_categories], lines 204-214. *)
Definition read_categories (env : Env) (db : Store) (token : string)
    (skip limit : Z) : Store * response (list Category) :=
  depends_current_user env db token (fun current_user =>
    CategoryService_get_categories env db skip limit (ur_id current_user)).

(** [read_category], lines 216-228. *)
Definition read_category (env : Env) (db : Store) (token : string)
    (category_id : Z) : Store * response Category :=
  depends_current_user env db token (fun current_user =>
    match CategoryService_get_category env db category_id (ur_id current_user) with
    | (db1, inl e) => (db1, inl e)
    | (db1, inr None) =>
        (db1, inl (mkHTTPException HTTP_404_NOT_FOUND "Category not found" []))
    | (db1, inr (Some category)) => (db1, inr category)
    end).

(** [update_category], lines 230-240. *)
Definition update_category (env : Env) (db : Store) (token : string)
    (category_id : Z) (category_update : CategoryUpdate)
  : Store * response Category :=
  depends_current_user env db token (fun current_user =>
    CategoryService_update_category env db category_id category_update
                                    (ur_id current_user)).

(** [delete_category], lines 242-252. *)
Definition delete_category (env : Env) (db : Store) (token : string)
    (category_id : Z) : Store * response unit :=
  depends_current_user env db token (fun current_user =>
    CategoryService_delete_category env db category_id (ur_id current_user)).

End WithServices.

End Endpoints.

(** ** The token issuer of section 4.4 *)

Module TokenIssuer.

(** Modelled from the spec: [create_access_token] and the decoding of a
    token live in [app/services/auth.py], which is not part of the sources.
    Section 4.4 asks for a signed token whose payload holds the subject, the
    scope set and an expiry, and for three kinds of decoding failure.  The
    token is a text of fields, each closed by a comma; a comma or a
    backslash inside a field is preceded by a backslash.  The first field is
    the signature of the rest, then come the subject, the expiry in decimal
    and one field per scope. *)
Definition comma : ascii := "044".
Definition backslash : ascii := "092".

Fixpoint escape (s : string) : string :=
  match s with
  | EmptyString => EmptyString
  | String c r =>
      if Ascii.eqb c comma || Ascii.eqb c backslash
      then String backslash (String c (escape r))
      else String c (escape r)
  end.

Fixpoint encode_fields (fields : list string) : string :=
  match fields with
  | [] => EmptyString
  | f :: rest => escape f ++ String comma (encode_fields rest)
  end.

(** Reads the fields back; [cur] is the part of the current field read so
    far.  A text that ends inside a field or after a lone backslash has no
    reading. *)
Fixpoint parse_fields_from (cur s : string) : option (list string) :=
  match s with
  | EmptyString => if PyStr.truthy cur then None else Some []
  | String c r =>
      if Ascii.eqb c comma then
        match parse_fields_from EmptyString r with
        | Some rest => Some (cur :: rest)
        | None => None
        end
      else if Ascii.eqb c backslash then
        match r with
        | String d r' => parse_fields_from (cur ++ String d EmptyString) r'
        | EmptyString => None
        end
      else parse_fields_from (cur ++ String c EmptyString) r
  end.

Definition parse_fields (s : string) : option (list string) :=
  parse_fields_from EmptyString s.

Definition encode_number (n : N) : string :=
  NilEmpty.string_of_uint (N.to_uint n).

Definition parse_number (s : string) : option N :=
  match NilEmpty.uint_of_string s with
  | Some d => Some (N.of_uint d)
  | None => None
  end.

(** The signing primitive and the configuration ([settings], not part of
    the sources): the process-wide key, the keyed signature of a text, and
    the lifetime of a token in minutes. *)
Class TokenSigner : Type := {
  SECRET_KEY : string;
  sign : string -> string -> string;
  ACCESS_TOKEN_EXPIRE_MINUTES : N
}.

(** The payload of a token. *)
Record Claims : Set := mkClaims {
  sub : string;
  claim_scopes : list string;
  exp : N
}.

Inductive DecodeFailure : Set := InvalidSignature | Expired | Malformed.

Definition payload_fields (c : Claims) : list string :=
  sub c :: encode_number (exp c) :: claim_scopes c.

(** [issue(subjectUsername, scopes)] at time [now]. *)
Definition issue `{TokenSigner} (now : N) (subject : string)
    (granted : list string) : string :=
  let body :=
    payload_fields
      (mkClaims subject granted (now + 60 * ACCESS_TOKEN_EXPIRE_MINUTES)%N) in
  encode_fields (sign SECRET_KEY (encode_fields body) :: body).

(** [decode(token)] at time [now]: the signature is recomputed over the
    payload fields and compared, the payload is read, and the expiry is
    checked against the clock. *)
Definition decode `{TokenSigner} (now : N) (token : string)
  : DecodeFailure + Claims :=
  match parse_fields token with
  | Some (signature :: body) =>
      if String.eqb (sign SECRET_KEY (encode_fields body)) signature then
        match body with
        | subject :: expiry :: granted =>
            match parse_number expiry with
            | Some e =>
                if (e <? now)%N then inl Expired
                else inr (mkClaims subject granted e)
            | None => inl Malformed
            end
        | _ => inl Malformed
        end
      else inl InvalidSignature
  | _ => inl Malformed
  end.

End TokenIssuer.

(** ** The services behind the endpoints *)

Module Impl.
Import Http Schemas Db.

Section WithPrimitives.
Context `{Models.PasswordHasher} `{TokenIssuer.TokenSigner}.

(** [session.add(user)] followed by the flush: the [before_insert] listener
    of the model runs on the row, and the row joins the table. *)
Definition orm_insert_user (salt : string) (row : Models.User) (db : Store)
  : Store :=
  mkStore (users db ++ [Models.hash_user_password salt row]) (tasks db)
          (categories db).

(** [session.delete(user)] followed by the flush: the row leaves the table,
    and with it every task of the [tasks] relationship, whose cascade is
    ["all, delete-orphan"] (line 34 of the model). *)
Definition orm_delete_user (user_id : Z) (db : Store) : Store :=
  mkStore (filter (fun u => Models.id u <> user_id) (users db))
          (filter (fun t => task_owner_id t <> user_id) (tasks db))
          (categories db).

(** Writes [row] over the user that has its identifier. *)
Definition orm_update_user (row : Models.User) (db : Store) : Store :=
  mkStore (map (fun u => if Z.eqb (Models.id u) (Models.id row) then row else u)
               (users db))
          (tasks db) (categories db).

(** [UserRead.from_orm(user)] ([orm_mode], line 56 of the schemas): every
    attribute is read from the row, [scopes] from the property. *)
Definition UserRead_from_orm (user : Models.User) : UserRead :=
  mkUserRead (Models.id user) (Models.email user) (Models.username user)
             (Models.full_name user) (Models.is_active user)
             (Models.is_superuser user) (Models.last_login user)
             (omap UserScope_of_value (Models.scopes user)).

Definition get_user_by_username (db : Store) (name : string)
  : option Models.User :=
  List.find (fun u => String.eqb (Models.username u) name) (users db).

Definition get_user_by_id (db : Store) (user_id : Z) : option Models.User :=
  List.find (fun u => Z.eqb (Models.id u) user_id) (users db).

(** Modelled from the spec: [authenticate_user] of [app/services/auth.py],
    the Authenticator of section 4.2.  An unknown user and a wrong password
    both give no user; on success the time of authentication is recorded. *)
Definition authenticate_user (env : Env) (db : Store)
    (identifier plaintext : string) : Store * option Models.User :=
  match get_user_by_username db identifier with
  | None => (db, None)
  | Some user =>
      if Models.verify_password user plaintext (Models.hashed_password user)
      then
        let user1 := Models.update_last_login user (now env) in
        (orm_update_user user1 db, Some user1)
      else (db, None)
  end.

(** Modelled from the spec: [create_access_token] of [app/services/auth.py],
    the [issue] of section 4.4 at the time of the request. *)
Definition create_access_token (env : Env) (subject : string)
    (granted : list string) : string :=
  TokenIssuer.issue (now env) subject granted.

Definition credentials_exception : HTTPException :=
  mkHTTPException HTTP_401_UNAUTHORIZED "Could not validate credentials"
                  [("WWW-Authenticate", "Bearer")].

Definition inactive_user : HTTPException :=
  mkHTTPException HTTP_401_UNAUTHORIZED "Inactive user" [].

(** Modelled from the spec: [get_current_active_user] of
    [app/services/auth.py], the Access Guard of section 4.5.  The token is
    decoded, the live user is fetched by the subject, an inactive user is
    rejected, and the scopes of the result are those of the live row. *)
Definition get_current_active_user (env : Env) (db : Store) (token : string)
  : response UserRead :=
  match TokenIssuer.decode (now env) token with
  | inl _ => inl credentials_exception
  | inr claims =>
      match get_user_by_username db (TokenIssuer.sub claims) with
      | None => inl credentials_exception
      | Some user =>
          if Models.is_active user then inr (UserRead_from_orm user)
          else inl inactive_user
      end
  end.

(** [get_password_hash] of [app/services/auth.py].  The endpoints import it
    at line 16 and none of them calls it. *)
Definition get_password_hash (salt password : string) : string :=
  Models.pwd_hash salt password.

Definition next_id (ids : list Z) : Z := 1 + foldr Z.max 0 ids.

Definition not_found (what : string) : HTTPException :=
  mkHTTPException HTTP_404_NOT_FOUND (what ++ " not found") [].

(** Modelled from the spec: [UserService] of [app/services/task_service.py]
    is not part of the sources.  Creation refuses a duplicate username or
    email with a conflict (section 7) and inserts the row.  The sources do
    not show what the service places in [hashed_password].  Here it places
    the submitted password there and leaves the hashing to the listener of
    the model, so that the secret is computed at creation time, before
    persistence, from the submitted plaintext (section 3).  Nothing proved
    below rests on this choice beyond the row being inserted. *)
Definition UserService_create_user (env : Env) (db : Store) (body : UserCreate)
  : Store * response UserRead :=
  if existsb (fun u => String.eqb (Models.username u) (uc_username body)
                       || String.eqb (Models.email u) (uc_email body))
             (users db)
  then (db, inl (mkHTTPException HTTP_409_CONFLICT "User already exists" []))
  else
    let row :=
      Models.mkUser (next_id (map Models.id (users db))) (uc_email body)
                    (uc_username body) (uc_password body)
                    (uc_full_name body) true false None in
    let db1 := orm_insert_user (entropy env 0%nat) row db in
    (db1, inr (UserRead_from_orm (Models.hash_user_password (entropy env 0%nat) row))).

Definition UserService_get_users (env : Env) (db : Store) (skip limit : Z)
  : Store * response (list UserRead) :=
  (db, inr (map UserRead_from_orm
                (take (Z.to_nat limit) (drop (Z.to_nat skip) (users db))))).

Definition UserService_get_user (env : Env) (db : Store) (user_id : Z)
  : Store * response (option UserRead) :=
  (db, inr (option_map UserRead_from_orm (get_user_by_id db user_id))).

Definition apply_user_update (body : UserUpdate) (u : Models.User)
  : Models.User :=
  Models.mkUser (Models.id u)
                (default (Models.email u) (uu_email body))
                (default (Models.username u) (uu_username body))
                (Models.hashed_password u)
                (match uu_full_name body with
                 | Some n => Some n
                 | None => Models.full_name u
                 end)
                (default (Models.is_active u) (uu_is_active body))
                (Models.is_superuser u) (Models.last_login u).

Definition UserService_update_user (env : Env) (db : Store) (user_id : Z)
    (body : UserUpdate) : Store * response UserRead :=
  match get_user_by_id db user_id with
  | None => (db, inl (not_found "User"))
  | Some u =>
      let u1 := apply_user_update body u in
      (orm_update_user u1 db, inr (UserRead_from_orm u1))
  end.

(** Deletion goes through the relationship of the model, so the tasks of
    the user go with it. *)
Definition UserService_delete_user (env : Env) (db : Store) (user_id : Z)
  : Store * response unit :=
  match get_user_by_id db user_id with
  | None => (db, inl (not_found "User"))
  | Some _ => (orm_delete_user user_id db, inr tt)
  end.

(** Modelled from the spec: [TaskService] of [app/services/task_service.py]
    is not part of the sources.  Every query and mutation carries the
    predicate "the owner is the caller" (sections 4.5 and 9), and a task that
    is absent or owned by someone else is a [NotFound] (section 7). *)
Definition owns_task (task_id owner_id : Z) (t : Task) : bool :=
  Z.eqb (Db.task_id t) task_id && Z.eqb (task_owner_id t) owner_id.

Definition TaskService_create_task (env : Env) (db : Store) (body : TaskCreate)
    (owner_id : Z) : Store * response Task :=
  let row := mkTask (next_id (map Db.task_id (tasks db))) owner_id (tc_title body) in
  (mkStore (users db) (tasks db ++ [row]) (categories db), inr row).

Definition TaskService_get_tasks (env : Env) (db : Store) (skip limit : Z)
    (owner_id : Z) : Store * response (list Task) :=
  (db, inr (take (Z.to_nat limit)
              (drop (Z.to_nat skip)
                 (List.filter (fun t => Z.eqb (task_owner_id t) owner_id)
                              (tasks db))))).

Definition TaskService_get_task (env : Env) (db : Store) (task_id owner_id : Z)
  : Store * response (option Task) :=
  (db, inr (List.find (owns_task task_id owner_id) (tasks db))).

Definition TaskService_update_task (env : Env) (db : Store) (task_id : Z)
    (body : TaskUpdate) (owner_id : Z) : Store * response Task :=
  match List.find (owns_task task_id owner_id) (tasks db) with
  | None => (db, inl (not_found "Task"))
  | Some t =>
      let t1 := mkTask (Db.task_id t) (task_owner_id t)
                       (default (task_title t) (tu_title body)) in
      (mkStore (users db)
               (map (fun x => if owns_task task_id owner_id x then t1 else x)
                    (tasks db))
               (categories db),
       inr t1)
  end.

Definition TaskService_delete_task (env : Env) (db : Store)
    (task_id owner_id : Z) : Store * response unit :=
  match List.find (owns_task task_id owner_id) (tasks db) with
  | None => (db, inl (not_found "Task"))
  | Some _ =>
      (mkStore (users db)
               (List.filter (fun x => negb (owns_task task_id owner_id x))
                            (tasks db))
               (categories db),
       inr tt)
  end.

(** Modelled from the spec: [CategoryService] of
    [app/services/category_service.py] is not part of the sources; it
    follows the task service. *)
Definition owns_category (category_id owner_id : Z) (c : Category) : bool :=
  Z.eqb (Db.category_id c) category_id && Z.eqb (category_owner_id c) owner_id.

Definition CategoryService_create_category (env : Env) (db : Store)
    (body : CategoryCreate) (owner_id : Z) : Store * response Category :=
  let row :=
    mkCategory (next_id (map Db.category_id (categories db))) owner_id
               (cc_name body) in
  (mkStore (users db) (tasks db) (categories db ++ [row]), inr row).

Definition CategoryService_get_categories (env : Env) (db : Store)
    (skip limit : Z) (owner_id : Z) : Store * response (list Category) :=
  (db, inr (take (Z.to_nat limit)
              (drop (Z.to_nat skip)
                 (List.filter (fun c => Z.eqb (category_owner_id c) owner_id)
                              (categories db))))).

Definition CategoryService_get_category (env : Env) (db : Store)
    (category_id owner_id : Z) : Store * response (option Category) :=
  (db, inr (List.find (owns_category category_id owner_id) (categories db))).

Definition CategoryService_update_category (env : Env) (db : Store)
    (category_id : Z) (body : CategoryUpdate) (owner_id : Z)
  : Store * response Category :=
  match List.find (owns_category category_id owner_id) (categories db) with
  | None => (db, inl (not_found "Category"))
  | Some c =>
      let c1 := mkCategory (Db.category_id c) (category_owner_id c)
                           (default (category_name c) (cu_name body)) in
      (mkStore (users db) (tasks db)
               (map (fun x => if owns_category category_id owner_id x then c1 else x)
                    (categories db)),
       inr c1)
  end.

Definition CategoryService_delete_category (env : Env) (db : Store)
    (category_id owner_id : Z) : Store * response unit :=
  match List.find (owns_category category_id owner_id) (categories db) with
  | None => (db, inl (not_found "Category"))
  | Some _ =>
      (mkStore (users db) (tasks db)
               (List.filter (fun x => negb (owns_category category_id owner_id x))
                            (categories db)),
       inr tt)
  end.

(** The services as the endpoints import them. *)
#[export] Instance services : Services.Services := {|
  Services.authenticate_user := authenticate_user;
  Services.create_access_token := create_access_token;
  Services.get_current_active_user := get_current_active_user;
  Services.UserService_create_user := UserService_create_user;
  Services.UserService_get_users := UserService_get_users;
  Services.UserService_get_user := UserService_get_user;
  Services.UserService_update_user := UserService_update_user;
  Services.UserService_delete_user := UserService_delete_user;
  Services.TaskService_create_task := TaskService_create_task;
  Services.TaskService_get_tasks := TaskService_get_tasks;
  Services.TaskService_get_task := TaskService_get_task;
  Services.TaskService_update_task := TaskService_update_task;
  Services.TaskService_delete_task := TaskService_delete_task;
  Services.CategoryService_create_category := CategoryService_create_category;
  Services.CategoryService_get_categories := CategoryService_get_categories;
  Services.CategoryService_get_category := CategoryService_get_category;
  Services.CategoryService_update_category := CategoryService_update_category;
  Services.CategoryService_delete_category := CategoryService_delete_category
|}.

End WithPrimitives.

End Impl.

(** ** Requests against the whole application *)

Module Api.
Import Http Schemas Db Services.

Inductive request : Set :=
| Login (form_username form_password : string)
| CreateUser (token : string) (body : UserCreate)
| ReadUsersMe (token : string)
| ReadUsers (token : string) (skip limit : Z)
| ReadUser (token : string) (user_id : Z)
| UpdateUser (token : string) (user_id : Z) (body : UserUpdate)
| DeleteUser (token : string) (user_id : Z)
| CreateTask (token : string) (body : TaskCreate)
| ReadTasks (token : string) (skip limit : Z)
| ReadTask (token : string) (task_id : Z)
| UpdateTask (token : string) (task_id : Z) (body : TaskUpdate)
| DeleteTask (token : string) (task_id : Z)
| CreateCategory (token : string) (body : CategoryCreate)
| ReadCategories (token : string) (skip limit : Z)
| ReadCategory (token : string) (category_id : Z)
| UpdateCategory (token : string) (category_id : Z) (body : CategoryUpdate)
| DeleteCategory (token : string) (category_id : Z).

(** The database a request leaves behind.  A body that fails validation
    never reaches its endpoint. *)
Definition handle `{Services} `{EmailValidator} (env : Env) (db : Store)
    (r : request) : Store :=
  match r with
  | Login u p => fst (Endpoints.login_for_access_token env db u p)
  | CreateUser tok body =>
      match UserCreate_errors body with
      | [] => fst (Endpoints.create_user env db tok body)
      | _ :: _ => db
      end
  | ReadUsersMe tok => fst (Endpoints.read_users_me env db tok)
  | ReadUsers tok skip limit => fst (Endpoints.read_users env db tok skip limit)
  | ReadUser tok uid => fst (Endpoints.read_user env db tok uid)
  | UpdateUser tok uid body =>
      match UserUpdate_errors body with
      | [] => fst (Endpoints.update_user env db tok uid body)
      | _ :: _ => db
      end
  | DeleteUser tok uid => fst (Endpoints.delete_user env db tok uid)
  | CreateTask tok body => fst (Endpoints.create_task env db tok body)
  | ReadTasks tok skip limit => fst (Endpoints.read_tasks env db tok skip limit)
  | ReadTask tok tid => fst (Endpoints.read_task env db tok tid)
  | UpdateTask tok tid body => fst (Endpoints.update_task env db tok tid body)
  | DeleteTask tok tid => fst (Endpoints.delete_task env db tok tid)
  | CreateCategory tok body => fst (Endpoints.create_category env db tok body)
  | ReadCategories tok skip limit =>
      fst (Endpoints.read_categories env db tok skip limit)
  | ReadCategory tok cid => fst (Endpoints.read_category env db tok cid)
  | UpdateCategory tok cid body =>
      fst (Endpoints.update_category env db tok cid body)
  | DeleteCategory tok cid => fst (Endpoints.delete_category env db tok cid)
  end.

(** A run of the application: the requests are served one after another,
    each with the clock and entropy of its moment. *)
Fixpoint run `{Services} `{EmailValidator} (trace : list (Env * request))
    (db : Store) : Store :=
  match trace with
  | [] => db
  | (env, r) :: rest => run rest (handle env db r)
  end.

(** No task is owned by a user that does not exist. *)
Definition no_orphans (db : Store) : Prop :=
  forall t, t ∈ tasks db -> exists u, u ∈ users db /\ Models.id u = task_owner_id t.

End Api.

(** ** Reference instances of the primitives

    Small, executable stand-ins for bcrypt, the signer and the e-mail
    validator, used to run the model on concrete requests.  They keep the
    contracts above and make no claim to be one-way. *)

Module Reference.

Definition salt_char (salt : string) : ascii :=
  match salt with
  | EmptyString => "."
  | String c _ => c
  end.

Definition ref_hash (salt p : string) : string :=
  String "$" (String (salt_char salt) p).

Definition ref_verify (p digest : string) : bool :=
  match digest with
  | String "$" (String _ r) => String.eqb r p
  | _ => false
  end.

#[export] Instance hasher : Models.PasswordHasher.
Proof.
  refine {| Models.pwd_hash := ref_hash; Models.pwd_verify := ref_verify |}.
  - intros salt p. apply String.eqb_refl.
  - intros salt p q Hne. apply String.eqb_neq. congruence.
  - intros salt p Heq. apply (f_equal String.length) in Heq.
    unfold ref_hash in Heq. simpl in Heq. lia.
  - intros salt p. discriminate.
Defined.

Definition ref_sign (key text : string) : string := key ++ ":" ++ text.

#[export] Instance signer : TokenIssuer.TokenSigner := {|
  TokenIssuer.SECRET_KEY := "k";
  TokenIssuer.sign := ref_sign;
  TokenIssuer.ACCESS_TOKEN_EXPIRE_MINUTES := 30%N
|}.

#[export] Instance emails : Schemas.EmailValidator :=
  fun v => PyStr.contains "@" v.

Definition env0 : Db.Env :=
  Db.mkEnv 1000%N (fun k => if Nat.eqb k 0 then "a" else "b").

(** A small database: two ordinary users, one elevated user, and a task and
    a category of each ordinary user. *)
Definition thabo : Models.User :=
  Models.mkUser 1 "thabo@example.org" "thabo" (ref_hash "x" "correct horse")
                (Some "Thabo Mokoena") true false None.

Definition naledi : Models.User :=
  Models.mkUser 2 "naledi@example.org" "naledi" (ref_hash "y" "battery staple")
                None true true None.

Definition sipho : Models.User :=
  Models.mkUser 3 "sipho@example.org" "sipho" (ref_hash "z" "tr0ubadour")
                (Some "Sipho Nkosi") true false None.

Definition db0 : Db.Store :=
  Db.mkStore [thabo; naledi; sipho]
             [Db.mkTask 10 1 "write report"; Db.mkTask 11 3 "buy milk"]
             [Db.mkCategory 20 1 "work"; Db.mkCategory 21 3 "home"].

(** The token a user of [db0] is issued at the time of [env0]. *)
Definition token_of (u : Models.User) : string :=
  TokenIssuer.issue (Db.now env0) (Models.username u) (Models.scopes u).

(** The services of [Impl] behind a guard that knows two tokens of the user
    with identifier 1: "plain" resolves to a caller without any scope,
    "elevated" to a caller with all five. *)
Definition plain_caller : Schemas.UserRead :=
  Schemas.mkUserRead 1 "thabo@example.org" "thabo" None true false None [].

Definition elevated_caller : Schemas.UserRead :=
  Schemas.mkUserRead 1 "thabo@example.org" "thabo" None true true None
    [Schemas.TASKS_READ; Schemas.TASKS_WRITE; Schemas.USERS_READ;
     Schemas.USERS_WRITE; Schemas.ADMIN].

Definition two_callers : Services.Services := {|
  Services.authenticate_user := Impl.authenticate_user;
  Services.create_access_token := Impl.create_access_token;
  Services.get_current_active_user := fun _ _ token =>
    if String.eqb token "plain" then inr plain_caller
    else if String.eqb token "elevated" then inr elevated_caller
    else inl Impl.credentials_exception;
  Services.UserService_create_user := Impl.UserService_create_user;
  Services.UserService_get_users := Impl.UserService_get_users;
  Services.UserService_get_user := Impl.UserService_get_user;
  Services.UserService_update_user := Impl.UserService_update_user;
  Services.UserService_delete_user := Impl.UserService_delete_user;
  Services.TaskService_create_task := Impl.TaskService_create_task;
  Services.TaskService_get_tasks := Impl.TaskService_get_tasks;
  Services.TaskService_get_task := Impl.TaskService_get_task;
  Services.TaskService_update_task := Impl.TaskService_update_task;
  Services.TaskService_delete_task := Impl.TaskService_delete_task;
  Services.CategoryService_create_category := Impl.CategoryService_create_category;
  Services.CategoryService_get_categories := Impl.CategoryService_get_categories;
  Services.CategoryService_get_category := Impl.CategoryService_get_category;
  Services.CategoryService_update_category := Impl.CategoryService_update_category;
  Services.CategoryService_delete_category := Impl.CategoryService_delete_category
|}.

(** A creation body that passes validation. *)
Definition zanele_body : Schemas.UserCreate :=
  Schemas.mkUserCreate "zanele@example.org" "zanele" "s3cret-pass" None.

End Reference.

(** ** Predicates used in the statements *)

(** Every character is a letter, a digit, an underscore or a hyphen. *)
Definition all_in_class (s : string) : Prop :=
  Forall (fun c => Schemas.in_class c = true) (PyStr.chars s).

Definition line_feed : string := String "010" EmptyString.

(** [v] holds "admin" in some letter case. *)
Definition mentions_admin (v : string) : Prop :=
  exists pre w post, v = pre ++ w ++ post /\ PyStr.lower w = "admin".

(** The two scope sets of section 3. *)
Definition all_scopes : gset string :=
  {[ "tasks:read"; "tasks:write"; "users:read"; "users:write"; "admin" ]}.

Definition task_scopes : gset string := {[ "tasks:read"; "tasks:write" ]}.

(** ** Sizes of the columns of the user model

    [String(n)] in lines 22-25 of [Task Manager/app/models/user.py]: the
    largest number of characters each column holds. *)

Module Columns.

Definition email_size : Z := 255.
Definition username_size : Z := 50.
Definition hashed_password_size : Z := 255.
Definition full_name_size : Z := 100.

(** A body of an accepted creation request, as the row it becomes, fits
    the columns that have a validated counterpart. *)
Definition fits_username (v : string) : Prop := PyStr.len v <= username_size.

Definition fits_full_name (v : option string) : Prop :=
  match v with
  | Some n => PyStr.len n <= full_name_size
  | None => True
  end.

End Columns.

(** * Properties *)

(** ** Strings *)

Section StringFacts.
Import PyStr.

Lemma startswith_spec (p s : string) :
  startswith p s = true <-> exists r, s = p ++ r.
Proof.
  revert s. induction p as [|a p IH]; intros s; simpl.
  - split; [intros _; by exists s | done].
  - destruct s as [|b s].
    + split; [done | intros [r Hr]; discriminate].
    + destruct (Ascii.eqb_spec a b) as [->|Hne].
      * rewrite IH. split; intros [r Hr]; exists r; [by rewrite Hr | by injection Hr].
      * split; [done | intros [r Hr]; injection Hr; congruence].
Qed.

Lemma contains_spec (needle hay : string) :
  contains needle hay = true <-> exists pre post, hay = pre ++ needle ++ post.
Proof.
  induction hay as [|c hay IH].
  - simpl. rewrite orb_false_r, startswith_spec. split.
    + intros [r Hr]. by exists "", r.
    + intros (pre & post & Heq). destruct pre; [by exists post | discriminate].
  - change (contains needle (String c hay))
      with (startswith needle (String c hay) || contains needle hay).
    rewrite orb_true_iff, startswith_spec, IH. split.
    + intros [[r Hr] | (pre & post & Heq)].
      * by exists "", r.
      * exists (String c pre), post. by rewrite Heq.
    + intros (pre & post & Heq). destruct pre as [|d pre].
      * left. by exists post.
      * right. exists pre, post. by injection Heq.
Qed.

Lemma lower_app (a b : string) : lower (a ++ b) = lower a ++ lower b.
Proof. induction a as [|c a IH]; simpl; [done | by rewrite IH]. Qed.

Lemma lower_split (v x y : string) :
  lower v = x ++ y -> exists a b, v = a ++ b /\ lower a = x /\ lower b = y.
Proof.
  revert v. induction x as [|c x IH]; intros v Hv.
  - by exists "", v.
  - destruct v as [|d v]; [discriminate|]. simpl in Hv. injection Hv as Hc Hrest.
    destruct (IH _ Hrest) as (a & b & -> & Ha & Hb).
    exists (String d a), b. simpl. by rewrite Hc, Ha.
Qed.

(** [needle in v.lower()] says that some run of [v] is [needle] once its
    letters are lowered: [v] contains [needle] in some letter case. *)
Lemma contains_lower_spec (needle v : string) :
  contains needle (lower v) = true
  <-> exists pre w post, v = pre ++ w ++ post /\ lower w = needle.
Proof.
  rewrite contains_spec. split.
  - intros (x & z & Heq).
    destruct (lower_split _ _ _ Heq) as (a & b & -> & _ & Hb).
    destruct (lower_split _ _ _ Hb) as (w & c & -> & Hw & _).
    by exists a, w, c.
  - intros (pre & w & post & -> & Hw).
    exists (lower pre), (lower post). by rewrite !lower_app, Hw.
Qed.

Lemma len_nonneg (v : string) : 0 <= len v.
Proof. unfold len. lia. Qed.

Lemma len_app (a b : string) : len (a ++ b) = len a + len b.
Proof.
  unfold len. induction a as [|c a IH].
  - change ("" ++ b) with b. simpl String.length. lia.
  - change (String c a ++ b) with (String c (a ++ b)). simpl String.length.
    rewrite !Nat2Z.inj_succ. lia.
Qed.

End StringFacts.

(** ** Validation of usernames *)

Section UsernameValidation.
Import PyStr Schemas.

Lemma re_class_star_end_spec (s : string) :
  re_class_star_end s = true
  <-> all_in_class s \/ exists w, s = w ++ line_feed /\ all_in_class w.
Proof.
  unfold all_in_class. induction s as [|c r IH]; simpl.
  - split; [intros _; left; constructor | done].
  - destruct (in_class c) eqn:Hc.
    + rewrite IH. split.
      * intros [Hall | (w & -> & Hw)].
        -- left. by constructor.
        -- right. exists (String c w). split; [done | by constructor].
      * intros [Hall | (w & Heq & Hw)].
        -- left. by inversion Hall.
        -- destruct w as [|d w].
           ++ injection Heq as -> _. discriminate.
           ++ injection Heq as -> ->. right. exists w. split; [done | by inversion Hw].
    + rewrite andb_true_iff, negb_true_iff. split.
      * intros [Hlf Hr]. apply Ascii.eqb_eq in Hlf as ->.
        destruct r; [|discriminate]. right. exists "". split; [done | constructor].
      * intros [Hall | (w & Heq & Hw)].
        -- inversion Hall; congruence.
        -- destruct w as [|d w].
           ++ by injection Heq as -> ->.
           ++ injection Heq as -> _. inversion Hw; congruence.
Qed.

(** What [re.match("^[a-zA-Z0-9_-]+$", v)] accepts: a non-empty run of
    class characters, alone or followed by one final line feed. *)
Lemma re_match_username_spec (v : string) :
  re_match_username v = true
  <-> exists w, w <> "" /\ all_in_class w /\ (v = w \/ v = w ++ line_feed).
Proof.
  destruct v as [|c r]; simpl.
  - split; [done|]. intros (w & Hne & _ & [Heq | Heq]); destruct w; done.
  - rewrite andb_true_iff, re_class_star_end_spec. unfold all_in_class. split.
    + intros [Hc [Hall | (w & -> & Hw)]].
      * exists (String c r). split; [done|]. split; [by constructor | by left].
      * exists (String c w). split; [done|]. split; [by constructor | by right].
    + intros (w & Hne & Hw & [Heq | Heq]); destruct w as [|d w]; try done;
        injection Heq as -> ->; inversion Hw; subst; split; try done.
      * by left.
      * right. by exists w.
Qed.

Lemma constr_length_validator_3_50 (v : string) :
  constr_length_validator (Some 3) (Some 50) v
  = if len v <? 3 then inl (AnyStrMinLengthError 3)
    else if 50 <? len v then inl (AnyStrMaxLengthError 50) else inr v.
Proof. reflexivity. Qed.

(** The creation chain accepts exactly the values of length 3 to 50 that
    the pattern matches and that do not hold "admin" once lowered. *)
Lemma validate_UserBase_username_spec (v : string) :
  validate_UserBase_username v = inr v
  <-> 3 <= len v <= 50 /\ re_match_username v = true
      /\ contains "admin" (lower v) = false.
Proof.
  unfold validate_UserBase_username, regex_validator,
    UserBase_username_must_be_valid.
  rewrite constr_length_validator_3_50.
  destruct (Z.ltb_spec (len v) 3); [split; [done | lia]|].
  destruct (Z.ltb_spec 50 (len v)); [split; [done | lia]|].
  destruct (re_match_username v); [|split; [done | intros (_ & ? & _); done]].
  destruct (contains "admin" (lower v)); [split; [done | intros (_ & _ & ?); done]|].
  split; [intros _; repeat split; lia | done].
Qed.

(** The update chain accepts exactly the values of length 3 to 50 that do
    not hold "admin" once lowered. *)
Lemma validate_UserUpdate_username_spec (v : string) :
  validate_UserUpdate_username v = inr v
  <-> 3 <= len v <= 50 /\ contains "admin" (lower v) = false.
Proof.
  unfold validate_UserUpdate_username, UserUpdate_username_must_be_valid.
  rewrite constr_length_validator_3_50.
  destruct (Z.ltb_spec (len v) 3); [split; [done | lia]|].
  destruct (Z.ltb_spec 50 (len v)); [split; [done | lia]|].
  assert (truthy v = true) as ->.
  { destruct v; [unfold len in *; simpl in *; lia | done]. }
  simpl. destruct (contains "admin" (lower v)); [split; [done | intros (_ & ?); done]|].
  split; [intros _; split; [lia | done] | done].
Qed.

Lemma mentions_admin_spec (v : string) :
  contains "admin" (lower v) = false <-> ~ mentions_admin v.
Proof.
  unfold mentions_admin. rewrite <- contains_lower_spec.
  destruct (contains "admin" (lower v)); split; done.
Qed.

End UsernameValidation.

Section UsernameClaims.
Import PyStr Schemas.

(** The creation chain in the words of the specification: the length is 3
    to 50, the value is a non-empty run of class characters, possibly
    followed by one final line feed, and it does not hold "admin" in any
    letter case. *)
Lemma UserBase_username_accepts_iff (v : string) :
  validate_UserBase_username v = inr v
  <-> 3 <= len v <= 50
      /\ (exists w, w <> "" /\ all_in_class w /\ (v = w \/ v = w ++ line_feed))
      /\ ~ mentions_admin v.
Proof.
  by rewrite validate_UserBase_username_spec, re_match_username_spec,
    mentions_admin_spec.
Qed.

Lemma all_in_class_app_line_feed (w : string) : ~ all_in_class (w ++ line_feed).
Proof.
  unfold all_in_class. induction w as [|c w IH].
  - intros Hall. inversion Hall. discriminate.
  - change (String c w ++ line_feed) with (String c (w ++ line_feed)).
    simpl. intros Hall. inversion Hall. by apply IH.
Qed.

(** X1: a value the creation chain accepts is made of class characters
    alone, unless it ends in a line feed. *)
Lemma UserBase_username_accepted_chars (v : string) :
  validate_UserBase_username v = inr v ->
  all_in_class v \/ exists w, v = w ++ line_feed /\ all_in_class w.
Proof.
  rewrite UserBase_username_accepts_iff.
  intros (_ & (w & _ & Hw & [-> | ->]) & _); [by left | right; by exists w].
Qed.

(** C7, at the failing input: the username "abc" followed by a line feed
    has four characters, the last of which is neither alphanumeric nor an
    underscore nor a hyphen, and the creation chain accepts it, alone and
    inside a whole [UserCreate] body; "administrator" and "ab" are
    rejected. *)
Theorem UserBase_username_trailing_line_feed :
  validate_UserBase_username ("abc" ++ line_feed) = inr ("abc" ++ line_feed)
  /\ ~ all_in_class ("abc" ++ line_feed)
  /\ @UserCreate_errors Reference.emails
       (mkUserCreate "sipho@example.org" ("abc" ++ line_feed) "password1" None) = []
  /\ validate_UserBase_username "administrator"
     = inl (ValueError "Username cannot contain 'admin'")
  /\ validate_UserBase_username "ab" = inl (AnyStrMinLengthError 3).
Proof.
  split; [reflexivity|]. split; [apply all_in_class_app_line_feed|].
  repeat split; reflexivity.
Qed.

(** C10: an update that carries a username is accepted exactly when the
    value is 3 to 50 characters long and does not hold "admin" in any letter
    case; whatever creation accepts, the update accepts; and the update
    accepts values with characters outside the pattern, which creation
    rejects. *)
Theorem UserUpdate_username_skips_pattern :
  (forall v, validate_UserUpdate_username v = inr v
             <-> 3 <= len v <= 50 /\ ~ mentions_admin v)
  /\ (forall v, validate_UserBase_username v = inr v ->
                validate_UserUpdate_username v = inr v)
  /\ (exists v, validate_UserUpdate_username v = inr v
                /\ ~ all_in_class v
                /\ validate_UserBase_username v
                   = inl (StrRegexError username_pattern)).
Proof.
  split; [|split].
  - intros v. by rewrite validate_UserUpdate_username_spec, mentions_admin_spec.
  - intros v. rewrite validate_UserBase_username_spec,
      validate_UserUpdate_username_spec. tauto.
  - exists "bob smith!". split; [reflexivity|]. split; [|reflexivity].
    unfold all_in_class. simpl. intros Hall.
    do 3 (inversion Hall as [|? ? _ Hall']; clear Hall; rename Hall' into Hall).
    inversion Hall. discriminate.
Qed.

(** The same on whole bodies: an update body whose only field is the
    username "bob smith!" passes validation, a creation body with that
    username does not. *)
Lemma UserUpdate_body_accepts_space :
  @UserUpdate_errors Reference.emails
    (mkUserUpdate None (Some "bob smith!") None None) = []
  /\ @UserCreate_errors Reference.emails
       (mkUserCreate "bob@example.org" "bob smith!" "password1" None)
     = [("username", StrRegexError username_pattern)].
Proof. split; reflexivity. Qed.

End UsernameClaims.

(** "thabo_1" is accepted at creation, and it is made of class characters
    alone. *)
Lemma UserBase_username_accepted_chars_witness :
  all_in_class "thabo_1"
  \/ exists w, "thabo_1" = w ++ line_feed /\ all_in_class w.
Proof. apply UserBase_username_accepted_chars. reflexivity. Defined.

(** ** Scope resolution *)

Section ScopeResolution.
Import Models.

(** C2: the scopes of a user depend on the elevated-role flag alone; with
    the flag they are the five scopes, without it the two task scopes, and
    then none of "admin", "users:read" and "users:write" is among them. *)
Theorem scopes_by_role (u : User) :
  (forall u', is_superuser u' = is_superuser u -> scopes u' = scopes u)
  /\ list_to_set (scopes u)
     = (if is_superuser u then all_scopes else task_scopes)
  /\ (is_superuser u = false ->
      ("admin" ∉ scopes u) /\ ("users:read" ∉ scopes u)
      /\ ("users:write" ∉ scopes u)).
Proof.
  split; [|split].
  - intros u' Hflag. unfold scopes. by rewrite Hflag.
  - unfold scopes, all_scopes, task_scopes.
    destruct (is_superuser u); simpl; set_solver.
  - intros Hflag. unfold scopes. rewrite Hflag.
    repeat split; intros Hin; repeat (apply elem_of_cons in Hin as [Hin | Hin];
      [discriminate|]); by apply elem_of_nil in Hin.
Qed.

End ScopeResolution.

(** ** Scope checks of the user endpoints *)

Section UserEndpointGuards.
Import Http Schemas Db Services Endpoints.
Context `{Services}.

Lemma lacks_true (scope : UserScope) (cu : UserRead) :
  lacks scope cu = true <-> scope ∉ ur_scopes cu.
Proof.
  unfold lacks. rewrite negb_true_iff, bool_decide_eq_false. done.
Qed.

Lemma lacks_false (scope : UserScope) (cu : UserRead) :
  lacks scope cu = false <-> scope ∈ ur_scopes cu.
Proof.
  unfold lacks. rewrite negb_false_iff, bool_decide_eq_true. done.
Qed.

(** An endpoint guarded by [scope] answers the caller that lacks it with
    the 403 exception and leaves the database as it was. *)
Lemma guarded_forbidden {A} (env : Env) (db : Store) (token : string)
    (cu : UserRead) (scope : UserScope) (service : Store * response A) :
  get_current_active_user env db token = inr cu ->
  scope ∉ ur_scopes cu ->
  depends_current_user env db token (fun current_user =>
    if lacks scope current_user then (db, inl not_enough_permissions)
    else service)
  = (db, inl not_enough_permissions).
Proof.
  intros Hcu Hscope. unfold depends_current_user. rewrite Hcu.
  apply lacks_true in Hscope. by rewrite Hscope.
Qed.

(** An endpoint guarded by [scope] returns normally only to a caller that
    holds it. *)
Lemma guarded_success {A} (env : Env) (db : Store) (token : string)
    (cu : UserRead) (scope : UserScope) (service : Store * response A) :
  get_current_active_user env db token = inr cu ->
  succeeded (snd (depends_current_user env db token (fun current_user =>
    if lacks scope current_user then (db, inl not_enough_permissions)
    else service))) = true ->
  scope ∈ ur_scopes cu.
Proof.
  intros Hcu. unfold depends_current_user. rewrite Hcu.
  destruct (lacks scope cu) eqn:Hl; [done|]. intros _. by apply lacks_false.
Qed.

(** C5: for an authenticated caller, creating, updating and deleting a user
    return normally only if the caller holds [users:write], listing and
    reading a user only if it holds [users:read]; a caller without the
    scope receives the 403 exception, which is not the 401 of a failed
    authentication, and the database is left as it was; [/users/me] returns
    the caller whatever its scopes. *)
Theorem user_endpoints_require_scope (env : Env) (db : Store) (token : string)
    (cu : UserRead) :
  get_current_active_user env db token = inr cu ->
  (USERS_WRITE ∉ ur_scopes cu ->
   forall body user_id upd,
     create_user env db token body = (db, inl not_enough_permissions)
     /\ update_user env db token user_id upd = (db, inl not_enough_permissions)
     /\ delete_user env db token user_id = (db, inl not_enough_permissions))
  /\ (USERS_READ ∉ ur_scopes cu ->
      forall skip limit user_id,
        read_users env db token skip limit = (db, inl not_enough_permissions)
        /\ read_user env db token user_id = (db, inl not_enough_permissions))
  /\ (forall body,
        succeeded (snd (create_user env db token body)) = true ->
        USERS_WRITE ∈ ur_scopes cu)
  /\ (forall user_id upd,
        succeeded (snd (update_user env db token user_id upd)) = true ->
        USERS_WRITE ∈ ur_scopes cu)
  /\ (forall user_id,
        succeeded (snd (delete_user env db token user_id)) = true ->
        USERS_WRITE ∈ ur_scopes cu)
  /\ (forall skip limit,
        succeeded (snd (read_users env db token skip limit)) = true ->
        USERS_READ ∈ ur_scopes cu)
  /\ (forall user_id,
        succeeded (snd (read_user env db token user_id)) = true ->
        USERS_READ ∈ ur_scopes cu)
  /\ read_users_me env db token = (db, inr cu)
  /\ status_code not_enough_permissions = 403
  /\ status_code not_enough_permissions <> HTTP_401_UNAUTHORIZED.
Proof.
  intros Hcu. repeat split.
  - by apply guarded_forbidden with cu.
  - by apply guarded_forbidden with cu.
  - by apply guarded_forbidden with cu.
  - by apply guarded_forbidden with cu.
  - by apply guarded_forbidden with cu.
  - intros body. by apply guarded_success.
  - intros user_id upd. by apply guarded_success.
  - intros user_id. by apply guarded_success.
  - intros skip limit. by apply guarded_success.
  - intros user_id. by apply guarded_success.
  - unfold read_users_me, depends_current_user. by rewrite Hcu.
  - done.
Qed.

End UserEndpointGuards.

Section UserEndpointGuardsRun.
Import Reference Impl.

(** On [db0], Thabo holds no user scope: his token is accepted, [/users/me]
    returns him, and every user endpoint answers 403. *)
Lemma user_endpoints_require_scope_witness :
  let env := Reference.env0 in
  let db := Reference.db0 in
  let token := Reference.token_of Reference.thabo in
  Endpoints.read_users_me env db token
  = (db, inr (Impl.UserRead_from_orm Reference.thabo))
  /\ Endpoints.delete_user env db token 3
     = (db, inl Endpoints.not_enough_permissions)
  /\ Endpoints.read_users env db token 0 100
     = (db, inl Endpoints.not_enough_permissions).
Proof.
  intros env db token.
  destruct (user_endpoints_require_scope env db token
              (Impl.UserRead_from_orm Reference.thabo))
    as (Hw & Hr & _ & _ & _ & _ & _ & Hme & _); [by vm_compute|].
  split; [exact Hme|]. split.
  - apply (Hw ltac:(apply (bool_decide_unpack _); vm_compute; exact I)
             (Schemas.mkUserCreate "" "" "" None) 3
             (Schemas.mkUserUpdate None None None None)).
  - apply (Hr ltac:(apply (bool_decide_unpack _); vm_compute; exact I) 0 100 3).
Defined.

End UserEndpointGuardsRun.

(** ** Token issuance: failures *)

Section LoginFailure.
Import Http Db Services Endpoints.

(** Whatever the authenticator, an attempt for which it yields no user is
    answered with the one exception of lines 42-46. *)
Lemma login_rejected `{Services} (env : Env) (db db1 : Store) (u p : string) :
  authenticate_user env db u p = (db1, None) ->
  login_for_access_token env db u p = (db1, inl incorrect_username_or_password).
Proof. intros Hauth. unfold login_for_access_token. by rewrite Hauth. Qed.

Context `{Models.PasswordHasher} `{TokenIssuer.TokenSigner}.
Local Existing Instance Impl.services.

Lemma authenticate_unknown_user (env : Env) (db : Store) (u p : string) :
  Impl.get_user_by_username db u = None ->
  Impl.authenticate_user env db u p = (db, None).
Proof. intros Hnone. unfold Impl.authenticate_user. by rewrite Hnone. Qed.

Lemma authenticate_wrong_password (env : Env) (db : Store) (u p : string)
    (user : Models.User) :
  Impl.get_user_by_username db u = Some user ->
  Models.pwd_verify p (Models.hashed_password user) = false ->
  Impl.authenticate_user env db u p = (db, None).
Proof.
  intros Hsome Hbad. unfold Impl.authenticate_user, Models.verify_password.
  by rewrite Hsome, Hbad.
Qed.

(** C3: an attempt with a username nobody has and an attempt with an
    existing username and a wrong password receive the same response, the
    401 exception with the generic message and the [WWW-Authenticate:
    Bearer] header, and both leave the database as it was. *)
Theorem login_failures_indistinguishable (env1 env2 : Env) (db : Store)
    (u1 p1 u2 p2 : string) (user : Models.User) :
  Impl.get_user_by_username db u1 = None ->
  Impl.get_user_by_username db u2 = Some user ->
  Models.pwd_verify p2 (Models.hashed_password user) = false ->
  login_for_access_token env1 db u1 p1 = login_for_access_token env2 db u2 p2
  /\ login_for_access_token env1 db u1 p1
     = (db, inl (mkHTTPException 401 "Incorrect username or password"
                                 [("WWW-Authenticate", "Bearer")])).
Proof.
  intros Hunknown Hknown Hbad.
  rewrite (login_rejected env1 db db u1 p1),
    (login_rejected env2 db db u2 p2); [done| |].
  - by apply authenticate_wrong_password with user.
  - by apply authenticate_unknown_user.
Qed.

End LoginFailure.

Section LoginFailureRun.
Import Reference Impl.

(** On [db0]: nobody is called "zanele", and "letmein" is not Thabo's
    password. *)
Lemma login_failures_indistinguishable_witness :
  Endpoints.login_for_access_token env0 db0 "zanele" "correct horse"
  = Endpoints.login_for_access_token env0 db0 "thabo" "letmein"
  /\ Endpoints.login_for_access_token env0 db0 "zanele" "correct horse"
     = (db0, inl (Http.mkHTTPException 401 "Incorrect username or password"
                                       [("WWW-Authenticate", "Bearer")])).
Proof.
  apply (login_failures_indistinguishable env0 env0 db0 "zanele" "correct horse"
           "thabo" "letmein" thabo); reflexivity.
Defined.

End LoginFailureRun.

(** ** The listener on a row that already holds a digest *)

Section PasswordAtCreation.
Import Http Schemas Db Endpoints.
Context `{Models.PasswordHasher} `{TokenIssuer.TokenSigner}.
Local Existing Instance Impl.services.

(** The listener hashes a non-empty attribute, whatever it holds. *)
Lemma hash_user_password_nonempty (salt : string) (target : Models.User) :
  Models.hashed_password target <> "" ->
  Models.hashed_password (Models.hash_user_password salt target)
  = Models.pwd_hash salt (Models.hashed_password target).
Proof.
  intros Hne. unfold Models.hash_user_password.
  destruct (Models.hashed_password target) eqn:Hp; [done|]. by simpl.
Qed.

(** The listener leaves an empty attribute empty. *)
Lemma hash_user_password_empty (salt : string) (target : Models.User) :
  Models.hashed_password target = "" ->
  Models.hash_user_password salt target = target.
Proof. intros Hp. unfold Models.hash_user_password. by rewrite Hp. Qed.

(** X2, on the model alone: a row whose [hashed_password] was filled by
    [User.hash_password] leaves the listener with the hash of that digest,
    against which the password does not verify. *)
Theorem hash_user_password_rehashes (salt1 salt2 p : string)
    (target : Models.User) :
  Models.hashed_password target = Models.hash_password target salt1 p ->
  Models.hashed_password (Models.hash_user_password salt2 target)
  = Models.pwd_hash salt2 (Models.pwd_hash salt1 p)
  /\ Models.verify_password target p
       (Models.hashed_password (Models.hash_user_password salt2 target))
     = false.
Proof.
  unfold Models.hash_password, Models.verify_password. intros Hrow.
  rewrite hash_user_password_nonempty, Hrow.
  - split; [done|]. apply Models.pwd_verify_other.
    intros Heq. by apply (Models.pwd_hash_not_plain salt1 p).
  - rewrite Hrow. apply Models.pwd_hash_not_empty.
Qed.

End PasswordAtCreation.

Section PasswordAtCreationRun.
Import Reference Impl.

(** Thabo's row, refilled with [User.hash_password] of his password and
    passed through the listener. *)
Lemma hash_user_password_rehashes_witness :
  Models.hashed_password
    (Models.hash_user_password "b"
       (Models.set_hashed_password thabo (ref_hash "a" "correct horse")))
  = ref_hash "b" (ref_hash "a" "correct horse")
  /\ Models.verify_password
       (Models.set_hashed_password thabo (ref_hash "a" "correct horse"))
       "correct horse"
       (Models.hashed_password
          (Models.hash_user_password "b"
             (Models.set_hashed_password thabo (ref_hash "a" "correct horse"))))
     = false.
Proof.
  exact (hash_user_password_rehashes "a" "b" "correct horse"
           (Models.set_hashed_password thabo (ref_hash "a" "correct horse"))
           eq_refl).
Defined.

End PasswordAtCreationRun.

(** ** Token issuance: the round trip *)

Section TokenRoundTrip.
Import TokenIssuer.

Lemma append_snoc (cur f : string) (c : ascii) :
  (cur ++ String c "") ++ f = cur ++ String c f.
Proof.
  induction cur as [|d cur IH]; [done|].
  change (String d (((cur ++ String c "") ++ f)) = String d (cur ++ String c f)).
  by rewrite IH.
Qed.

Lemma append_empty_r (s : string) : s ++ "" = s.
Proof.
  induction s as [|c s IH]; [done|].
  change (String c (s ++ "") = String c s). by rewrite IH.
Qed.

(** Reading an escaped field followed by its comma yields the field and
    goes on with the rest. *)
Lemma parse_fields_from_escape (f cur rest : string) :
  parse_fields_from cur (escape f ++ String comma rest)
  = match parse_fields_from "" rest with
    | Some l => Some ((cur ++ f) :: l)
    | None => None
    end.
Proof.
  revert cur. induction f as [|c f IH]; intros cur.
  - change (escape "" ++ String comma rest) with (String comma rest).
    simpl. by rewrite append_empty_r.
  - simpl escape.
    destruct (Ascii.eqb c comma || Ascii.eqb c backslash) eqn:Hsp.
    + change (String backslash (String c (escape f)) ++ String comma rest)
        with (String backslash (String c (escape f ++ String comma rest))).
      cbn [parse_fields_from]. change (Ascii.eqb backslash comma) with false.
      change (Ascii.eqb backslash backslash) with true. cbn iota.
      by rewrite IH, append_snoc.
    + change (String c (escape f) ++ String comma rest)
        with (String c (escape f ++ String comma rest)).
      apply orb_false_iff in Hsp as [Hc Hb].
      cbn [parse_fields_from]. rewrite Hc, Hb.
      by rewrite IH, append_snoc.
Qed.

(** Every list of fields is read back from its encoding. *)
Lemma parse_encode_fields (fields : list string) :
  parse_fields (encode_fields fields) = Some fields.
Proof.
  unfold parse_fields. induction fields as [|f fields IH]; [done|].
  simpl encode_fields. by rewrite parse_fields_from_escape, IH.
Qed.

Lemma parse_encode_number (n : N) : parse_number (encode_number n) = Some n.
Proof.
  unfold parse_number, encode_number.
  by rewrite NilEmpty.usu, DecimalN.Unsigned.of_to.
Qed.

Context `{TokenSigner}.

(** A token decoded at the time it was issued yields the subject, the
    scopes and the expiry it was issued with. *)
Lemma decode_issue (now : N) (subject : string) (granted : list string) :
  decode now (issue now subject granted)
  = inr (mkClaims subject granted (now + 60 * ACCESS_TOKEN_EXPIRE_MINUTES)%N).
Proof.
  unfold decode, issue, payload_fields. rewrite parse_encode_fields.
  cbn [sub exp claim_scopes]. rewrite String.eqb_refl, parse_encode_number.
  destruct (N.ltb_spec (now + 60 * ACCESS_TOKEN_EXPIRE_MINUTES) now) as [Hlt|_];
    [lia | done].
Qed.

End TokenRoundTrip.

Section LoginRoundTrip.
Import Http Schemas Db Endpoints TokenIssuer.
Context `{Models.PasswordHasher} `{TokenSigner}.
Local Existing Instance Impl.services.

(** A user the authenticator returns is a user of the database whose
    password verified; recording the time of authentication changes neither
    the username nor the scopes. *)
Lemma authenticate_user_some (env : Env) (db db1 : Store) (u p : string)
    (user1 : Models.User) :
  Impl.authenticate_user env db u p = (db1, Some user1) ->
  exists user,
    Impl.get_user_by_username db u = Some user
    /\ Models.pwd_verify p (Models.hashed_password user) = true
    /\ Models.username user1 = Models.username user
    /\ Models.scopes user1 = Models.scopes user.
Proof.
  unfold Impl.authenticate_user, Models.verify_password.
  destruct (Impl.get_user_by_username db u) as [user|]; [|done].
  destruct (Models.pwd_verify p (Models.hashed_password user)) eqn:Hv; [|done].
  intros [= _ <-]. by exists user.
Qed.

(** C4: when a token is issued to a user, decoding it at once yields the
    username of that user as the subject and the scopes resolved for that
    user, together with the expiry it was given. *)
Theorem issued_token_round_trip (env : Env) (db db1 : Store) (u p : string)
    (tok : Token) :
  login_for_access_token env db u p = (db1, inr tok) ->
  exists user,
    Impl.get_user_by_username db u = Some user
    /\ token_type tok = "bearer"
    /\ decode (now env) (access_token tok)
       = inr (mkClaims (Models.username user) (Models.scopes user)
                       (now env + 60 * ACCESS_TOKEN_EXPIRE_MINUTES)%N).
Proof.
  unfold login_for_access_token.
  destruct (Services.authenticate_user env db u p) as [db2 [user1|]] eqn:Hauth;
    [|done].
  intros [= _ <-].
  destruct (authenticate_user_some _ _ _ _ _ _ Hauth) as (user & Hu & _ & Hn & Hs).
  exists user. split; [done|]. split; [done|].
  cbn [access_token Services.create_access_token Impl.services].
  unfold Impl.create_access_token. by rewrite decode_issue, Hn, Hs.
Qed.

End LoginRoundTrip.

Section LoginRoundTripRun.
Import Reference Impl.

(** Thabo logs in on [db0] at time 1000 with his password; the token he
    receives decodes at once to his username, his two scopes and the expiry
    thirty minutes later. *)
Lemma issued_token_round_trip_witness :
  exists user,
    get_user_by_username db0 "thabo" = Some user
    /\ Schemas.token_type (Schemas.mkToken (token_of thabo) "bearer") = "bearer"
    /\ TokenIssuer.decode (Db.now env0)
         (Schemas.access_token (Schemas.mkToken (token_of thabo) "bearer"))
       = inr (TokenIssuer.mkClaims (Models.username user) (Models.scopes user)
                (Db.now env0
                 + 60 * TokenIssuer.ACCESS_TOKEN_EXPIRE_MINUTES)%N).
Proof.
  apply (issued_token_round_trip env0 db0
           (orm_update_user (Models.update_last_login thabo 1000) db0)
           "thabo" "correct horse").
  vm_compute. reflexivity.
Defined.

End LoginRoundTripRun.

(** ** Ownership of tasks and categories *)

Section Ownership.
Import Http Schemas Db Endpoints.
Context `{Models.PasswordHasher} `{TokenIssuer.TokenSigner}.
Local Existing Instance Impl.services.


Lemma find_Some_elem_of {A} (f : A -> bool) (l : list A) (x : A) :
  List.find f l = Some x -> x ∈ l /\ f x = true.
Proof.
  intros Hf. apply List.find_some in Hf as [Hin Hfx].
  split; [by apply list_elem_of_In | done].
Qed.




(** The owner of what an endpoint creates or lists is the caller: no
    request names an owner. *)
Lemma task_owner_is_caller (env : Env) (db db1 : Store) (token : string)
    (cu : UserRead) :
  Services.get_current_active_user env db token = inr cu ->
  (forall body t, create_task env db token body = (db1, inr t) ->
                  task_owner_id t = ur_id cu)
  /\ (forall skip limit l, read_tasks env db token skip limit = (db1, inr l) ->
                           forall t, t ∈ l -> t ∈ tasks db /\ task_owner_id t = ur_id cu).
Proof.
  intros Hcu. split.
  - intros body t. unfold create_task, depends_current_user. rewrite Hcu.
    by intros [= _ <-].
  - intros skip limit l. unfold read_tasks, depends_current_user. rewrite Hcu.
    intros [= _ <-] t Ht.
    apply subseteq_take, subseteq_drop in Ht.
    apply list_elem_of_In, List.filter_In in Ht as [Ht Ho].
    split; [by apply list_elem_of_In | by apply Z.eqb_eq].
Qed.

End Ownership.

Section OwnershipRun.
Import Reference Impl.


End OwnershipRun.

(** ** Deleting a user and the owners of tasks *)

Section Cascade.
Import Http Schemas Db Endpoints Api.
Context `{Models.PasswordHasher} `{TokenIssuer.TokenSigner} `{EmailValidator}.
Local Existing Instance Impl.services.

Lemma no_orphans_ids (db : Store) :
  no_orphans db
  <-> forall t, t ∈ tasks db -> task_owner_id t ∈ map Models.id (users db).
Proof.
  unfold no_orphans. split; intros Hno t Ht.
  - destruct (Hno t Ht) as (u & Hu & <-). by apply (list_elem_of_fmap_2 Models.id).
  - specialize (Hno t Ht). apply list_elem_of_fmap in Hno as (u & Hid & Hu).
    by exists u.
Qed.

(** A step that loses no user and whose tasks are old ones or belong to a
    user keeps the invariant. *)
Lemma no_orphans_step (db db1 : Store) :
  no_orphans db ->
  (forall x, x ∈ map Models.id (users db) -> x ∈ map Models.id (users db1)) ->
  (forall t, t ∈ tasks db1 ->
     (exists t0, t0 ∈ tasks db /\ task_owner_id t0 = task_owner_id t)
     \/ task_owner_id t ∈ map Models.id (users db1)) ->
  no_orphans db1.
Proof.
  rewrite !no_orphans_ids. intros Hno Husers Htasks t Ht.
  destruct (Htasks t Ht) as [(t0 & Ht0 & <-) | Hin]; [|done].
  by apply Husers, Hno.
Qed.

Lemma orm_update_user_ids (row : Models.User) (db : Store) :
  map Models.id (users (Impl.orm_update_user row db)) = map Models.id (users db).
Proof.
  unfold Impl.orm_update_user. cbn [users]. induction (users db) as [|u l IH];
    [done|]. cbn [map]. rewrite IH. f_equal.
  destruct (Z.eqb_spec (Models.id u) (Models.id row)); congruence.
Qed.

Lemma orm_update_user_no_orphans (row : Models.User) (db : Store) :
  no_orphans db -> no_orphans (Impl.orm_update_user row db).
Proof.
  intros Hno. apply (no_orphans_step db); [done| |].
  - intros x. by rewrite orm_update_user_ids.
  - intros t Ht. left. by exists t.
Qed.

(** Deleting a user removes the user and every task it owns, and keeps the
    invariant. *)
Lemma orm_delete_user_tasks (user_id : Z) (db : Store) :
  (forall t, t ∈ tasks (Impl.orm_delete_user user_id db) ->
             t ∈ tasks db /\ task_owner_id t <> user_id)
  /\ (forall u, u ∈ users (Impl.orm_delete_user user_id db) ->
                u ∈ users db /\ Models.id u <> user_id).
Proof.
  unfold Impl.orm_delete_user. cbn [tasks users].
  split; intros x Hx; apply list_elem_of_filter in Hx; tauto.
Qed.

Lemma orm_delete_user_no_orphans (user_id : Z) (db : Store) :
  no_orphans db -> no_orphans (Impl.orm_delete_user user_id db).
Proof.
  intros Hno t Ht. apply orm_delete_user_tasks in Ht as [Ht Hown].
  destruct (Hno t Ht) as (u & Hu & Hid). exists u. split; [|done].
  unfold Impl.orm_delete_user. cbn [users]. apply list_elem_of_filter.
  split; [congruence | done].
Qed.

(** The user the Access Guard resolves is a row of the users table. *)
Lemma current_user_exists (env : Env) (db : Store) (token : string)
    (cu : UserRead) :
  Impl.get_current_active_user env db token = inr cu ->
  ur_id cu ∈ map Models.id (users db).
Proof.
  unfold Impl.get_current_active_user.
  destruct (TokenIssuer.decode _ _) as [|claims]; [done|].
  destruct (Impl.get_user_by_username _ _) as [user|] eqn:Hu; [|done].
  destruct (Models.is_active user); [|done]. intros [= <-].
  apply find_Some_elem_of in Hu as [Hu _].
  by apply (list_elem_of_fmap_2 Models.id).
Qed.

Lemma no_orphans_same (db db1 : Store) :
  users db1 = users db -> tasks db1 = tasks db ->
  no_orphans db -> no_orphans db1.
Proof. unfold no_orphans. intros -> ->. done. Qed.

Lemma authenticate_no_orphans (env : Env) (db : Store) (u p : string) :
  no_orphans db -> no_orphans (fst (Impl.authenticate_user env db u p)).
Proof.
  intros Hno. unfold Impl.authenticate_user.
  destruct (Impl.get_user_by_username db u) as [user|]; [|done].
  destruct (Models.verify_password _ _ _); [|done].
  by apply orm_update_user_no_orphans.
Qed.

Lemma create_user_no_orphans (env : Env) (db : Store) (body : UserCreate) :
  no_orphans db -> no_orphans (fst (Impl.UserService_create_user env db body)).
Proof.
  intros Hno. unfold Impl.UserService_create_user.
  destruct (existsb _ _); [done|]. cbn [fst].
  apply (no_orphans_step db); [done| |].
  - intros x Hx. unfold Impl.orm_insert_user. cbn [users].
    rewrite map_app. apply elem_of_app. by left.
  - intros t Ht. left. by exists t.
Qed.

Lemma update_user_no_orphans (env : Env) (db : Store) (user_id : Z)
    (body : UserUpdate) :
  no_orphans db ->
  no_orphans (fst (Impl.UserService_update_user env db user_id body)).
Proof.
  intros Hno. unfold Impl.UserService_update_user.
  destruct (Impl.get_user_by_id db user_id); [|done].
  by apply orm_update_user_no_orphans.
Qed.

Lemma delete_user_no_orphans (env : Env) (db : Store) (user_id : Z) :
  no_orphans db -> no_orphans (fst (Impl.UserService_delete_user env db user_id)).
Proof.
  intros Hno. unfold Impl.UserService_delete_user.
  destruct (Impl.get_user_by_id db user_id); [|done].
  by apply orm_delete_user_no_orphans.
Qed.

Lemma create_task_no_orphans (env : Env) (db : Store) (body : TaskCreate)
    (owner_id : Z) :
  owner_id ∈ map Models.id (users db) ->
  no_orphans db ->
  no_orphans (fst (Impl.TaskService_create_task env db body owner_id)).
Proof.
  intros Howner Hno. unfold Impl.TaskService_create_task. cbn [fst].
  apply (no_orphans_step db); [done..|]. cbn [tasks users].
  intros t Ht. apply elem_of_app in Ht as [Ht | Ht].
  - left. by exists t.
  - right. apply list_elem_of_singleton in Ht as ->. done.
Qed.

Lemma update_task_no_orphans (env : Env) (db : Store) (task_id : Z)
    (body : TaskUpdate) (owner_id : Z) :
  no_orphans db ->
  no_orphans (fst (Impl.TaskService_update_task env db task_id body owner_id)).
Proof.
  intros Hno. unfold Impl.TaskService_update_task.
  destruct (List.find _ _) as [t0|] eqn:Hf; [|done]. cbn [fst].
  apply find_Some_elem_of in Hf as [Ht0 _].
  apply (no_orphans_step db); [done..|]. cbn [tasks].
  intros t Ht. left. apply list_elem_of_fmap in Ht as (x & -> & Hx).
  destruct (Impl.owns_task task_id owner_id x); [by exists t0 | by exists x].
Qed.

Lemma delete_task_no_orphans (env : Env) (db : Store) (task_id owner_id : Z) :
  no_orphans db ->
  no_orphans (fst (Impl.TaskService_delete_task env db task_id owner_id)).
Proof.
  intros Hno. unfold Impl.TaskService_delete_task.
  destruct (List.find _ _) as [t0|]; [|done]. cbn [fst].
  apply (no_orphans_step db); [done..|]. cbn [tasks].
  intros t Ht. left. exists t. split; [|done].
  apply list_elem_of_In, List.filter_In in Ht as [Ht _]. by apply list_elem_of_In.
Qed.

(** What the endpoint does after its dependency keeps the invariant, so the
    endpoint does. *)
Lemma depends_no_orphans {A} (env : Env) (db : Store) (token : string)
    (body : UserRead -> Store * response A) :
  no_orphans db ->
  (forall cu, Impl.get_current_active_user env db token = inr cu ->
              no_orphans (fst (body cu))) ->
  no_orphans (fst (depends_current_user env db token body)).
Proof.
  intros Hno Hbody. unfold depends_current_user.
  cbn [Services.get_current_active_user Impl.services].
  destruct (Impl.get_current_active_user env db token) as [e|cu] eqn:Hcu; [done|].
  by apply Hbody.
Qed.

Lemma category_services_no_orphans (env : Env) (db : Store) (owner_id : Z) :
  no_orphans db ->
  (forall body,
     no_orphans (fst (Impl.CategoryService_create_category env db body owner_id)))
  /\ (forall cid body,
        no_orphans
          (fst (Impl.CategoryService_update_category env db cid body owner_id)))
  /\ (forall cid,
        no_orphans (fst (Impl.CategoryService_delete_category env db cid owner_id))).
Proof.
  intros Hno. repeat split.
  - intros body. by apply (no_orphans_same db).
  - intros cid body. unfold Impl.CategoryService_update_category.
    destruct (List.find _ _); [by apply (no_orphans_same db) | done].
  - intros cid. unfold Impl.CategoryService_delete_category.
    destruct (List.find _ _); [by apply (no_orphans_same db) | done].
Qed.

(** Every request keeps the invariant. *)
Lemma handle_no_orphans (env : Env) (db : Store) (r : request) :
  no_orphans db -> no_orphans (handle env db r).
Proof.
  intros Hno.
  destruct r as [u p | tok body | tok | tok skip limit | tok uid | tok uid body
                | tok uid | tok body | tok skip limit | tok tid | tok tid body
                | tok tid | tok body | tok skip limit | tok cid | tok cid body
                | tok cid];
    cbn [handle].
  - unfold login_for_access_token.
    cbn [Services.authenticate_user Impl.services].
    pose proof (authenticate_no_orphans env db u p Hno) as Hauth.
    destruct (Impl.authenticate_user env db u p) as [db1 [user|]]; exact Hauth.
  - destruct (UserCreate_errors body); [|done].
    apply depends_no_orphans; [done|]. intros cu Hcu.
    destruct (lacks USERS_WRITE cu); [done|]. by apply create_user_no_orphans.
  - apply depends_no_orphans; [done|]. by intros cu Hcu.
  - apply depends_no_orphans; [done|]. intros cu Hcu.
    by destruct (lacks USERS_READ cu).
  - apply depends_no_orphans; [done|]. intros cu Hcu.
    destruct (lacks USERS_READ cu); [done|].
    cbn [Services.UserService_get_user Impl.services].
    unfold Impl.UserService_get_user. by destruct (option_map _ _).
  - destruct (UserUpdate_errors body); [|done].
    apply depends_no_orphans; [done|]. intros cu Hcu.
    destruct (lacks USERS_WRITE cu); [done|]. by apply update_user_no_orphans.
  - apply depends_no_orphans; [done|]. intros cu Hcu.
    destruct (lacks USERS_WRITE cu); [done|]. by apply delete_user_no_orphans.
  - apply depends_no_orphans; [done|]. intros cu Hcu.
    apply create_task_no_orphans; [|done]. by apply (current_user_exists env db tok).
  - apply depends_no_orphans; [done|]. by intros cu Hcu.
  - apply depends_no_orphans; [done|]. intros cu Hcu.
    cbn [Services.TaskService_get_task Impl.services].
    unfold Impl.TaskService_get_task. by destruct (List.find _ _).
  - apply depends_no_orphans; [done|]. intros cu Hcu.
    by apply update_task_no_orphans.
  - apply depends_no_orphans; [done|]. intros cu Hcu.
    by apply delete_task_no_orphans.
  - apply depends_no_orphans; [done|]. intros cu Hcu.
    by apply category_services_no_orphans.
  - apply depends_no_orphans; [done|]. by intros cu Hcu.
  - apply depends_no_orphans; [done|]. intros cu Hcu.
    cbn [Services.CategoryService_get_category Impl.services].
    unfold Impl.CategoryService_get_category. by destruct (List.find _ _).
  - apply depends_no_orphans; [done|]. intros cu Hcu.
    by apply category_services_no_orphans.
  - apply depends_no_orphans; [done|]. intros cu Hcu.
    by apply category_services_no_orphans.
Qed.

(** C9: when the deletion of a user goes through, no task of that user and
    no user of that identifier is left; and a database in which every task
    has an existing owner stays so under every sequence of requests. *)
Theorem delete_user_leaves_no_orphans (db : Store) :
  no_orphans db ->
  (forall env token user_id db1,
     delete_user env db token user_id = (db1, inr tt) ->
     (forall t, t ∈ tasks db1 -> task_owner_id t <> user_id)
     /\ (forall u, u ∈ users db1 -> Models.id u <> user_id))
  /\ (forall trace, no_orphans (run trace db)).
Proof.
  intros Hno. split.
  - intros env token user_id db1. unfold delete_user, depends_current_user.
    destruct (Services.get_current_active_user env db token) as [e|cu]; [done|].
    destruct (lacks USERS_WRITE cu); [done|].
    cbn [Services.UserService_delete_user Impl.services].
    unfold Impl.UserService_delete_user.
    destruct (Impl.get_user_by_id db user_id); [|done]. intros [= <-].
    split; intros x Hx; by apply orm_delete_user_tasks in Hx as [_ Hx].
  - intros trace. revert db Hno.
    induction trace as [|[env r] trace IH]; intros db Hno; [done|].
    cbn [run]. by apply IH, handle_no_orphans.
Qed.

End Cascade.

Section CascadeRun.
Import Reference Impl.

Lemma db0_no_orphans : Api.no_orphans db0.
Proof.
  intros t Ht. apply list_elem_of_In in Ht. simpl in Ht.
  destruct Ht as [<- | [<- | []]].
  - exists thabo. split; [|done]. apply list_elem_of_In. simpl. tauto.
  - exists sipho. split; [|done]. apply list_elem_of_In. simpl. tauto.
Qed.

(** On [db0] Naledi deletes Sipho: his task goes with him, Thabo's stays,
    and whatever follows, every task has an owner. *)
Lemma delete_user_leaves_no_orphans_witness :
  Endpoints.delete_user env0 db0 (token_of naledi) 3
  = (Db.mkStore [thabo; naledi] [Db.mkTask 10 1 "write report"]
                (Db.categories db0), inr tt)
  /\ (forall t,
        t ∈ Db.tasks (Db.mkStore [thabo; naledi] [Db.mkTask 10 1 "write report"]
                                 (Db.categories db0)) ->
        Db.task_owner_id t <> 3)
  /\ Api.no_orphans
       (Api.run [(env0, Api.DeleteUser (token_of naledi) 3);
                 (env0, Api.CreateTask (token_of thabo)
                          (Db.mkTaskCreate "call Sipho"))]
                db0).
Proof.
  destruct (delete_user_leaves_no_orphans db0 db0_no_orphans) as [Hdel Hrun].
  split; [by vm_compute|]. split.
  - apply (Hdel env0 (token_of naledi) 3). by vm_compute.
  - apply Hrun.
Defined.

End CascadeRun.

(** ** Decoding failures *)

Section DecodeFailures.
Import TokenIssuer.
Context `{TokenSigner}.

(** A token decoded after its expiry is reported expired. *)
Lemma decode_after_expiry (issued now : N) (subject : string)
    (granted : list string) :
  (issued + 60 * ACCESS_TOKEN_EXPIRE_MINUTES < now)%N ->
  decode now (issue issued subject granted) = inl Expired.
Proof.
  intros Hlate. unfold decode, issue, payload_fields.
  rewrite parse_encode_fields. cbn [sub exp claim_scopes].
  rewrite String.eqb_refl, parse_encode_number.
  by destruct (N.ltb_spec (issued + 60 * ACCESS_TOKEN_EXPIRE_MINUTES) now); [|lia].
Qed.

(** A token whose signature field is not the signature of its payload is
    reported as such, whatever the payload and the clock. *)
Lemma decode_wrong_signature (now : N) (signature : string)
    (body : list string) :
  signature <> sign SECRET_KEY (encode_fields body) ->
  decode now (encode_fields (signature :: body)) = inl InvalidSignature.
Proof.
  intros Hsig. unfold decode. rewrite parse_encode_fields.
  destruct (String.eqb_spec (sign SECRET_KEY (encode_fields body)) signature);
    congruence.
Qed.

(** A text that ends inside a field has no reading. *)
Lemma decode_unterminated (now : N) : decode now "abc" = inl Malformed.
Proof. reflexivity. Qed.

End DecodeFailures.

(** * Further properties of the schemas, the model and the endpoints *)

(** ** The scope enumeration *)

Section ScopeValues.
Import Schemas.

(** X3: every member of [UserScope] is found again from its value, and a
    text names a member only if it is that member's value; so the five
    values are pairwise distinct. *)
Theorem UserScope_value_round_trip :
  (forall s, UserScope_of_value (UserScope_value s) = Some s)
  /\ (forall v s, UserScope_of_value v = Some s -> UserScope_value s = v)
  /\ (forall s1 s2, UserScope_value s1 = UserScope_value s2 -> s1 = s2).
Proof.
  assert (Hrt : forall s, UserScope_of_value (UserScope_value s) = Some s)
    by (by intros []).
  split; [done|]. split.
  - intros v s. unfold UserScope_of_value.
    repeat match goal with
      | |- context [String.eqb v ?x] =>
          destruct (String.eqb_spec v x) as [->|_]; [by intros [= <-]|]
      end.
    done.
  - intros s1 s2 Heq. apply (f_equal UserScope_of_value) in Heq.
    rewrite !Hrt in Heq. by injection Heq.
Qed.

(** X4: the scopes of a user are values of [UserScope], each once: read
    into [List[UserScope]] and written back as text they are the same
    list, so no scope is lost or repeated between the model and
    [UserRead]. *)
Theorem scopes_are_UserScope_values (u : Models.User) :
  UserScope_value <$> omap UserScope_of_value (Models.scopes u) = Models.scopes u
  /\ length (omap UserScope_of_value (Models.scopes u)) = length (Models.scopes u)
  /\ NoDup (Models.scopes u).
Proof.
  unfold Models.scopes. destruct (Models.is_superuser u).
  - split; [reflexivity|]. split; [reflexivity|].
    apply (bool_decide_unpack _). by vm_compute.
  - split; [reflexivity|]. split; [reflexivity|].
    apply (bool_decide_unpack _). by vm_compute.
Qed.

End ScopeValues.

(** ** The order of the username checks *)

Section UsernameErrors.
Import PyStr Schemas.

(** X6: which error a username meets at creation.  The length is checked
    first, then the pattern, then "admin": a value that is too short or too
    long is reported as such whatever it holds, and a value outside the
    pattern is reported for the pattern even when it holds "admin". *)
Theorem validate_UserBase_username_error (v : string) :
  (validate_UserBase_username v = inl (AnyStrMinLengthError 3) <-> len v < 3)
  /\ (validate_UserBase_username v = inl (AnyStrMaxLengthError 50)
      <-> 50 < len v)
  /\ (validate_UserBase_username v = inl (StrRegexError username_pattern)
      <-> 3 <= len v <= 50 /\ re_match_username v = false)
  /\ (validate_UserBase_username v
      = inl (ValueError "Username cannot contain 'admin'")
      <-> 3 <= len v <= 50 /\ re_match_username v = true /\ mentions_admin v).
Proof.
  unfold mentions_admin. rewrite <- contains_lower_spec.
  unfold validate_UserBase_username, regex_validator,
    UserBase_username_must_be_valid.
  rewrite constr_length_validator_3_50.
  destruct (Z.ltb_spec (len v) 3); [repeat split; (done || lia)|].
  destruct (Z.ltb_spec 50 (len v)); [repeat split; (done || lia)|].
  destruct (re_match_username v);
    [|repeat split; try done; try lia; by intros (_ & ? & _)].
  destruct (contains "admin" (lower v));
    repeat split; try done; try lia; try (by intros (_ & ?));
    by intros (_ & _ & ?).
Qed.

End UsernameErrors.

(** ** Whole bodies *)

Section Bodies.
Import PyStr Schemas.
Context `{EmailValidator}.

Lemma errors_of_nil {A} (field : string) (r : validated A) :
  errors_of field r = [] <-> exists a, r = inr a.
Proof.
  destruct r as [e|a]; simpl; split; try done.
  - by intros [a Ha].
  - intros _. by exists a.
Qed.

Lemma validate_UserBase_username_inr (v r : string) :
  validate_UserBase_username v = inr r -> r = v.
Proof.
  unfold validate_UserBase_username, regex_validator,
    UserBase_username_must_be_valid.
  rewrite constr_length_validator_3_50.
  destruct (len v <? 3); [done|]. destruct (50 <? len v); [done|].
  destruct (re_match_username v); [|done].
  destruct (contains "admin" (lower v)); [done|]. by intros [= <-].
Qed.

Lemma validate_UserUpdate_username_inr (v r : string) :
  validate_UserUpdate_username v = inr r -> r = v.
Proof.
  unfold validate_UserUpdate_username, UserUpdate_username_must_be_valid.
  rewrite constr_length_validator_3_50.
  destruct (len v <? 3); [done|]. destruct (50 <? len v); [done|].
  destruct (truthy v && contains "admin" (lower v)); [done|]. by intros [= <-].
Qed.

Lemma min_length_8_nil (v : string) :
  errors_of "password" (constr_length_validator (Some 8) None v) = []
  <-> 8 <= len v.
Proof.
  unfold constr_length_validator.
  destruct (Z.ltb_spec (len v) 8); simpl; split; (done || lia).
Qed.

Lemma max_length_100_nil (v : string) :
  errors_of "full_name" (constr_length_validator None (Some 100) v) = []
  <-> len v <= 100.
Proof.
  unfold constr_length_validator.
  destruct (Z.ltb_spec 100 (len v)); simpl; split; (done || lia).
Qed.

Lemma validate_email_nil (v : string) :
  errors_of "email" (validate_email v) = [] <-> EmailStr_valid v = true.
Proof. unfold validate_email. by destruct (EmailStr_valid v). Qed.

Lemma UserCreate_errors_nil (body : UserCreate) :
  UserCreate_errors body = []
  <-> EmailStr_valid (uc_email body) = true
      /\ validate_UserBase_username (uc_username body) = inr (uc_username body)
      /\ 8 <= len (uc_password body)
      /\ (forall n, uc_full_name body = Some n -> len n <= 100).
Proof.
  unfold UserCreate_errors.
  rewrite !app_nil, validate_email_nil, errors_of_nil, min_length_8_nil.
  assert ((exists a, validate_UserBase_username (uc_username body) = inr a)
          <-> validate_UserBase_username (uc_username body)
              = inr (uc_username body)) as ->.
  { split; [|by eexists]. intros [a Ha].
    by rewrite Ha, (validate_UserBase_username_inr _ _ Ha). }
  destruct (uc_full_name body) as [n|].
  - rewrite max_length_100_nil. split.
    + intros (? & ? & ? & ?). repeat split; try done. by intros ? [= <-].
    + intros (? & ? & ? & Hn). repeat split; try done. by apply Hn.
  - split; intros (? & ? & ? & ?); repeat split; done.
Qed.

Lemma optional_field_nil {A} (o : option string) (E : string -> list A)
    (P : string -> Prop) :
  (forall x, E x = [] <-> P x) ->
  match o with Some x => E x | None => [] end = []
  <-> forall x, o = Some x -> P x.
Proof.
  intros HE. destruct o as [x|].
  - rewrite HE. split; [by intros ? ? [= <-] | by intros Hx; apply Hx].
  - split; done.
Qed.

Lemma UserUpdate_errors_nil (body : UserUpdate) :
  UserUpdate_errors body = []
  <-> (forall e, uu_email body = Some e -> EmailStr_valid e = true)
      /\ (forall u, uu_username body = Some u ->
                    3 <= len u <= 50 /\ ~ mentions_admin u)
      /\ (forall n, uu_full_name body = Some n -> len n <= 100).
Proof.
  unfold UserUpdate_errors. rewrite !app_nil.
  rewrite (optional_field_nil _ _ _ validate_email_nil),
    (optional_field_nil _ _ _ max_length_100_nil).
  rewrite (optional_field_nil (uu_username body) _
             (fun u => 3 <= len u <= 50 /\ ~ mentions_admin u)); [done|].
  intros u. rewrite errors_of_nil, <- mentions_admin_spec,
    <- validate_UserUpdate_username_spec.
  split; [|by eexists]. intros [a Ha].
  by rewrite Ha, (validate_UserUpdate_username_inr _ _ Ha).
Qed.

(** X7: a creation body passes validation exactly when the e-mail is
    valid, the username passes its chain, the password has at least 8
    characters (there is no upper bound) and the full name, when given, has
    at most 100; when it does not pass, each field is reported at most once,
    in the order e-mail, username, password, full name. *)
Theorem UserCreate_accepted_iff (body : UserCreate) :
  (UserCreate_errors body = []
   <-> EmailStr_valid (uc_email body) = true
       /\ validate_UserBase_username (uc_username body) = inr (uc_username body)
       /\ 8 <= len (uc_password body)
       /\ (forall n, uc_full_name body = Some n -> len n <= 100))
  /\ sublist (map fst (UserCreate_errors body))
             ["email"; "username"; "password"; "full_name"].
Proof.
  split; [apply UserCreate_errors_nil|].
  unfold UserCreate_errors.
  destruct (validate_email _), (validate_UserBase_username _),
    (constr_length_validator (Some 8) None _), (uc_full_name body) as [n|];
    try destruct (constr_length_validator None (Some 100) n); simpl;
    repeat first [apply sublist_skip | apply sublist_nil_l | apply sublist_cons].
Qed.

(** X8: an update body whose fields have parsed to their types passes the
    field validators exactly when each text it carries is valid: the
    e-mail, the username (3 to 50 characters, no "admin" in any letter case)
    and the full name (at most 100 characters); a field that is absent or
    null is not a reason to refuse. *)
Theorem UserUpdate_accepted_iff (body : UserUpdate) :
  UserUpdate_errors body = []
  <-> (forall e, uu_email body = Some e -> EmailStr_valid e = true)
      /\ (forall u, uu_username body = Some u ->
                    3 <= len u <= 50 /\ ~ mentions_admin u)
      /\ (forall n, uu_full_name body = Some n -> len n <= 100).
Proof. apply UserUpdate_errors_nil. Qed.

(** X14: what validation lets through fits the table: the username of an
    accepted creation or update body has at most as many characters as the
    [username] column holds, and its full name at most as many as the
    [full_name] column. *)
Theorem accepted_bodies_fit_columns :
  (forall body, UserCreate_errors body = [] ->
     Columns.fits_username (uc_username body)
     /\ Columns.fits_full_name (uc_full_name body))
  /\ (forall body, UserUpdate_errors body = [] ->
        (forall u, uu_username body = Some u -> Columns.fits_username u)
        /\ Columns.fits_full_name (uu_full_name body)).
Proof.
  unfold Columns.fits_username, Columns.fits_full_name,
    Columns.username_size, Columns.full_name_size. split.
  - intros body. rewrite UserCreate_errors_nil.
    intros (_ & Hu & _ & Hn). apply validate_UserBase_username_spec in Hu.
    split; [lia|]. destruct (uc_full_name body); [by apply Hn | done].
  - intros body. rewrite UserUpdate_errors_nil. intros (_ & Hu & Hn). split.
    + intros u Hsome. destruct (Hu u Hsome). lia.
    + destruct (uu_full_name body); [by apply Hn | done].
Qed.

End Bodies.

Section AcceptedUsernames.
Import PyStr Schemas.

(** X15: a username that either chain accepts has 3 to 50 characters and
    contains no spelling of "admin", whatever the case of its letters. *)
Theorem accepted_username_bounds (v : string) :
  validate_UserBase_username v = inr v \/ validate_UserUpdate_username v = inr v ->
  3 <= len v <= 50
  /\ forall w, lower w = "admin" -> contains w v = false.
Proof.
  intros Hacc.
  assert (3 <= len v <= 50 /\ ~ mentions_admin v) as [Hlen Hno].
  { destruct Hacc as [Hacc | Hacc].
    - apply UserBase_username_accepts_iff in Hacc. tauto.
    - apply validate_UserUpdate_username_spec in Hacc.
      by rewrite mentions_admin_spec in Hacc. }
  split; [done|]. intros w Hw.
  destruct (contains w v) eqn:Hc; [|done]. exfalso. apply Hno.
  apply contains_spec in Hc as (pre & post & ->). by exists pre, w, post.
Qed.

(** "Thabo_1" is accepted at creation: it has seven characters, and none of
    "admin", "Admin" and "ADMIN" occurs in it. *)
Lemma accepted_username_bounds_witness :
  3 <= len "Thabo_1" <= 50
  /\ forall w, lower w = "admin" -> contains w "Thabo_1" = false.
Proof. apply accepted_username_bounds. left. reflexivity. Defined.

End AcceptedUsernames.

Section BodiesRun.
Import Reference.

(** Zanele's creation body passes validation and fits the columns. *)
Lemma accepted_bodies_fit_columns_witness :
  Columns.fits_username (Schemas.uc_username zanele_body)
  /\ Columns.fits_full_name (Schemas.uc_full_name zanele_body).
Proof.
  destruct (@accepted_bodies_fit_columns emails) as [Hcreate _].
  apply Hcreate. reflexivity.
Defined.

End BodiesRun.

(** ** The listener of the user model *)

Section Listener.
Import Models.
Context `{PasswordHasher}.

(** X10: a row inserted with a non-empty plaintext in [hashed_password]
    leaves the listener with a digest there that is not empty, is not the
    plaintext, and verifies it; every other attribute, and so the scopes,
    is as it was. *)
Theorem listener_hashes_plaintext (salt : string) (target : User) :
  hashed_password target <> "" ->
  hashed_password (hash_user_password salt target)
  = pwd_hash salt (hashed_password target)
  /\ verify_password (hash_user_password salt target) (hashed_password target)
       (hashed_password (hash_user_password salt target)) = true
  /\ hashed_password (hash_user_password salt target) <> hashed_password target
  /\ hashed_password (hash_user_password salt target) <> ""
  /\ set_hashed_password (hash_user_password salt target) (hashed_password target)
     = target
  /\ scopes (hash_user_password salt target) = scopes target.
Proof.
  intros Hne. rewrite hash_user_password_nonempty by done.
  split; [done|]. split; [apply pwd_verify_hash|].
  split; [apply pwd_hash_not_plain|]. split; [apply pwd_hash_not_empty|].
  unfold hash_user_password. destruct target as [i e u h f a s l]. simpl in *.
  by destruct h.
Qed.

(** X11: the listener leaves a row exactly as it was if and only if its
    [hashed_password] is empty; an empty password attribute is stored
    empty, not as a digest. *)
Theorem listener_skips_exactly_empty (salt : string) (target : User) :
  hash_user_password salt target = target <-> hashed_password target = "".
Proof.
  split.
  - intros Hsame. destruct (hashed_password target) eqn:Hp; [done|]. exfalso.
    apply (pwd_hash_not_plain salt (hashed_password target)).
    rewrite <- hash_user_password_nonempty by (by rewrite Hp).
    by rewrite Hsame.
  - apply hash_user_password_empty.
Qed.

End Listener.

Section ListenerRun.
Import Reference.

(** Thabo's row with the plaintext "correct horse" in [hashed_password]. *)
Lemma listener_hashes_plaintext_witness :
  Models.hashed_password
    (Models.hash_user_password "b" (Models.set_hashed_password thabo "correct horse"))
  = ref_hash "b" "correct horse"
  /\ ref_verify "correct horse"
       (Models.hashed_password
          (Models.hash_user_password "b"
             (Models.set_hashed_password thabo "correct horse"))) = true.
Proof.
  destruct (listener_hashes_plaintext "b"
              (Models.set_hashed_password thabo "correct horse"))
    as (Hh & Hv & _); [discriminate|].
  split; [exact Hh | exact Hv].
Defined.

End ListenerRun.

(** ** The dependency of the endpoints *)

Section Dependency.
Import Http Schemas Db Services Endpoints.
Context `{Services}.

(** X12: when [get_current_active_user] raises, each of the fifteen
    endpoints that have it as their only guard answers with that exception
    and leaves the database as it was: no service is called, whatever the
    arguments.  [create_user] is not among them: its [HTTPBearer]
    dependency is resolved first and may answer before. *)
Theorem rejected_caller_reaches_no_service (env : Env) (db : Store)
    (token : string) (e : HTTPException) :
  get_current_active_user env db token = inl e ->
  read_users_me env db token = (db, inl e)
  /\ (forall skip limit, read_users env db token skip limit = (db, inl e))
  /\ (forall user_id, read_user env db token user_id = (db, inl e))
  /\ (forall user_id upd, update_user env db token user_id upd = (db, inl e))
  /\ (forall user_id, delete_user env db token user_id = (db, inl e))
  /\ (forall body, create_task env db token body = (db, inl e))
  /\ (forall skip limit, read_tasks env db token skip limit = (db, inl e))
  /\ (forall task_id, read_task env db token task_id = (db, inl e))
  /\ (forall task_id upd, update_task env db token task_id upd = (db, inl e))
  /\ (forall task_id, delete_task env db token task_id = (db, inl e))
  /\ (forall body, create_category env db token body = (db, inl e))
  /\ (forall skip limit, read_categories env db token skip limit = (db, inl e))
  /\ (forall category_id, read_category env db token category_id = (db, inl e))
  /\ (forall category_id upd,
        update_category env db token category_id upd = (db, inl e))
  /\ (forall category_id, delete_category env db token category_id = (db, inl e)).
Proof.
  intros Hrej.
  unfold read_users_me, read_users, read_user, update_user,
    delete_user, create_task, read_tasks, read_task, update_task, delete_task,
    create_category, read_categories, read_category, update_category,
    delete_category, depends_current_user.
  rewrite Hrej. repeat split.
Qed.

(** X13: the task and category endpoints use nothing of the caller but its
    identifier.  Two accepted tokens whose callers have the same identifier
    receive the same answer and leave the same database, whatever the
    scopes, the role and the other attributes of the two callers: these
    endpoints check no scope. *)
Theorem task_endpoints_use_caller_id_only (env : Env) (db : Store)
    (token1 token2 : string) (cu1 cu2 : UserRead) :
  get_current_active_user env db token1 = inr cu1 ->
  get_current_active_user env db token2 = inr cu2 ->
  ur_id cu1 = ur_id cu2 ->
  (forall body, create_task env db token1 body = create_task env db token2 body)
  /\ (forall skip limit,
        read_tasks env db token1 skip limit = read_tasks env db token2 skip limit)
  /\ (forall task_id, read_task env db token1 task_id = read_task env db token2 task_id)
  /\ (forall task_id upd,
        update_task env db token1 task_id upd = update_task env db token2 task_id upd)
  /\ (forall task_id,
        delete_task env db token1 task_id = delete_task env db token2 task_id)
  /\ (forall body,
        create_category env db token1 body = create_category env db token2 body)
  /\ (forall skip limit,
        read_categories env db token1 skip limit
        = read_categories env db token2 skip limit)
  /\ (forall category_id,
        read_category env db token1 category_id
        = read_category env db token2 category_id)
  /\ (forall category_id upd,
        update_category env db token1 category_id upd
        = update_category env db token2 category_id upd)
  /\ (forall category_id,
        delete_category env db token1 category_id
        = delete_category env db token2 category_id).
Proof.
  intros Hcu1 Hcu2 Hid.
  unfold create_task, read_tasks, read_task, update_task, delete_task,
    create_category, read_categories, read_category, update_category,
    delete_category, depends_current_user.
  rewrite Hcu1, Hcu2, Hid. repeat split.
Qed.

End Dependency.

Section DependencyRun.
Import Reference Impl.

(** On [db0] the text "not a token" is no token: Sipho's task is not
    deleted, user 3 is not deleted, and the database is as before. *)
Lemma rejected_caller_reaches_no_service_witness :
  Endpoints.delete_task env0 db0 "not a token" 11
  = (db0, inl credentials_exception)
  /\ Endpoints.delete_user env0 db0 "not a token" 3
     = (db0, inl credentials_exception).
Proof.
  destruct (rejected_caller_reaches_no_service env0 db0 "not a token"
              credentials_exception)
    as (_ & _ & _ & _ & Hdeluser & _ & _ & _ & _ & Hdel & _);
    [by vm_compute|].
  split; [apply Hdel | apply Hdeluser].
Defined.

(** A caller without any scope and a caller with all five, both with
    identifier 1, are answered alike: each may list and delete the tasks of
    user 1. *)
Lemma task_endpoints_use_caller_id_only_witness :
  @Endpoints.read_tasks two_callers env0 db0 "plain" 0 100
  = @Endpoints.read_tasks two_callers env0 db0 "elevated" 0 100
  /\ @Endpoints.delete_task two_callers env0 db0 "plain" 10
     = @Endpoints.delete_task two_callers env0 db0 "elevated" 10
  /\ @Endpoints.read_tasks two_callers env0 db0 "plain" 0 100
     = (db0, inr [Db.mkTask 10 1 "write report"]).
Proof.
  destruct (@task_endpoints_use_caller_id_only two_callers env0 db0 "plain"
              "elevated" plain_caller elevated_caller)
    as (_ & Hlist & _ & _ & Hdel & _); [reflexivity..|].
  split; [apply Hlist|]. split; [apply Hdel | reflexivity].
Defined.

End DependencyRun.

(** ** The role behind the scope checks *)

Section GuardAndRole.
Import Schemas Endpoints.

Lemma UserScope_value_inj (s1 s2 : UserScope) :
  UserScope_value s1 = UserScope_value s2 -> s1 = s2.
Proof. by destruct s1, s2. Qed.

Lemma UserScope_values_inj (l1 l2 : list UserScope) :
  UserScope_value <$> l1 = UserScope_value <$> l2 -> l1 = l2.
Proof.
  revert l2. induction l1 as [|s1 l1 IH]; intros [|s2 l2]; try done.
  intros [= Hs Hl]. f_equal; [by apply UserScope_value_inj | by apply IH].
Qed.

(** X17: for a caller whose scopes are those of a user of the model, the
    tests of the endpoints follow the role: [users:read], [users:write] and
    [admin] are lacking exactly when the user is not elevated, and the two
    task scopes are never lacking. *)
Theorem scope_tests_follow_role (u : Models.User) (cu : UserRead) :
  UserScope_value <$> ur_scopes cu = Models.scopes u ->
  lacks USERS_READ cu = negb (Models.is_superuser u)
  /\ lacks USERS_WRITE cu = negb (Models.is_superuser u)
  /\ lacks ADMIN cu = negb (Models.is_superuser u)
  /\ lacks TASKS_READ cu = false
  /\ lacks TASKS_WRITE cu = false.
Proof.
  unfold Models.scopes, lacks. intros Hscopes.
  destruct (Models.is_superuser u).
  - rewrite (UserScope_values_inj (ur_scopes cu)
               [TASKS_READ; TASKS_WRITE; USERS_READ; USERS_WRITE; ADMIN] Hscopes).
    by vm_compute.
  - rewrite (UserScope_values_inj (ur_scopes cu) [TASKS_READ; TASKS_WRITE] Hscopes).
    by vm_compute.
Qed.

End GuardAndRole.

Section GuardAndRoleRun.
Import Reference.

(** Naledi is elevated: the caller read from her row lacks no scope. *)
Lemma scope_tests_follow_role_witness :
  Endpoints.lacks Schemas.USERS_READ (Impl.UserRead_from_orm naledi) = false
  /\ Endpoints.lacks Schemas.USERS_WRITE (Impl.UserRead_from_orm naledi) = false
  /\ Endpoints.lacks Schemas.ADMIN (Impl.UserRead_from_orm naledi) = false
  /\ Endpoints.lacks Schemas.TASKS_READ (Impl.UserRead_from_orm naledi) = false
  /\ Endpoints.lacks Schemas.TASKS_WRITE (Impl.UserRead_from_orm naledi) = false.
Proof.
  exact (scope_tests_follow_role naledi (Impl.UserRead_from_orm naledi) eq_refl).
Defined.

End GuardAndRoleRun.
